(** * toefl-prep client: payload normalisation, quiz session, identity store
      and HTTP wrapper, embedded from the JavaScript sources

    Sources embedded here:
    - [client/src/pages/QuizPage.jsx]      (normalizeQuestions, getQuestionId,
                                            getOptions, startQuiz,
                                            handleAnswerChange, answeredCount,
                                            allAnswered, submitQuiz)
    - [client/src/pages/DashboardPage.jsx] (normalizeLessons, fetchAllData,
                                            stats)
    - [client/src/pages/AuthPage.jsx]      (handleInputChange, toggleMode,
                                            handleSubmit)
    - [client/src/context/AuthContext.jsx] (getStoredAuth, persistState,
                                            authenticate, logout)
    - [client/src/services/apiClient.js]   (buildUrl, request)
    - [client/src/App.jsx]                 (ProtectedRoute)

    React state is threaded explicitly: every [setX] call of a handler is one
    record update, in the order the handler issues them.  Calls to the backend
    are the handler's environment and appear as arguments giving the outcome
    of each awaited promise. *)

From stdpp Require Import gmap strings list fin_maps pretty.

Set Warnings "-register-all,-clear-no-such-hyp".

Open Scope string_scope.

(** ** JavaScript values that JSON can carry

    Numbers are the integer-valued ones (sequence numbers, lengths, HTTP
    status codes): [VNum n] stands for the number [n] when [|n| <= 2^53], the
    integers that a double holds exactly and that the engine prints digit by
    digit ([in_range] below says that a value keeps to them). An object is
    its own enumerable properties in the order the engine enumerates them
    ([Object.values] order). *)

Inductive value : Type :=
  | VUndefined
  | VNull
  | VBool (b : bool)
  | VNum (n : Z)
  | VStr (s : string)
  | VArr (items : list value)
  | VObj (props : list (string * value)).

(** Truthiness as used by [!x], [x ? a : b], [x || y] and [x && y]. *)
Definition truthy (v : value) : bool :=
  match v with
  | VUndefined | VNull => false
  | VBool b => b
  | VNum n => negb (n =? 0)%Z
  | VStr s => negb (String.eqb s "")
  | VArr _ | VObj _ => true
  end.

(** [x == null], the test behind [?.] and [??]. *)
Definition nullish (v : value) : bool :=
  match v with
  | VUndefined | VNull => true
  | _ => false
  end.

(** [a ?? b] *)
Definition coalesce (a b : value) : value :=
  if nullish a then b else a.

(** [a || b] *)
Definition js_or (a b : value) : value :=
  if truthy a then a else b.

(** [Array.isArray] *)
Definition isArray (v : value) : bool :=
  match v with
  | VArr _ => true
  | _ => false
  end.

(** The elements of an array value. *)
Definition items_of (v : value) : list value :=
  match v with
  | VArr items => items
  | _ => []
  end.

(** [typeof v === 'object']: objects, arrays and also [null]. *)
Definition typeof_object (v : value) : bool :=
  match v with
  | VNull | VArr _ | VObj _ => true
  | _ => false
  end.

(** Values that are not primitives: records and lists. *)
Definition structured (v : value) : bool :=
  match v with
  | VArr _ | VObj _ => true
  | _ => false
  end.

(** [ToString], as applied by template literals, [String(x)], [new Error(x)]
    and by property-key conversion, where it returns: the conversion throws a
    TypeError exactly when [converts] below is false, and [to_string] is the
    string it gives otherwise. An array joins its elements with commas,
    printing [null] and [undefined] elements as the empty string. *)
Fixpoint to_string (v : value) : string :=
  match v with
  | VUndefined => "undefined"
  | VNull => "null"
  | VBool true => "true"
  | VBool false => "false"
  | VNum n => pretty n
  | VStr s => s
  | VArr items =>
      let elem (x : value) : string :=
        if nullish x then "" else to_string x in
      (fix join (l : list value) : string :=
         match l with
         | [] => ""
         | x :: rest =>
             match rest with
             | [] => elem x
             | _ :: _ => elem x +:+ "," +:+ join rest
             end
         end) items
  | VObj _ => "[object Object]"
  end.

(** Whether [ToString] returns. An object is converted through its
    [toString] member: the inherited one gives ["[object Object]"], an own
    one is a JSON value, hence not callable, and the conversion then throws
    a TypeError (the inherited [valueOf] only hands the object back). An
    array converts when its elements do. *)
Fixpoint converts (v : value) : bool :=
  match v with
  | VArr items =>
      (fix all (l : list value) : bool :=
         match l with
         | [] => true
         | x :: rest => converts x && all rest
         end) items
  | VObj props =>
      negb (existsb (λ kv : string * value, String.eqb kv.1 "toString") props)
  | _ => true
  end.


(** Lookup of an own property in an object's property list. *)
Fixpoint assoc (k : string) (props : list (string * value)) : value :=
  match props with
  | [] => VUndefined
  | (k', v) :: rest => if String.eqb k k' then v else assoc k rest
  end.

(** [v?.k] for the property names the sources read. On arrays and strings the
    only such name that resolves is [length]; on the other primitives none
    does. *)
Definition get (k : string) (v : value) : value :=
  match v with
  | VObj props => assoc k props
  | VArr items =>
      if String.eqb k "length" then VNum (Z.of_nat (length items))
      else VUndefined
  | VStr s =>
      if String.eqb k "length" then VNum (Z.of_nat (String.length s))
      else VUndefined
  | _ => VUndefined
  end.

(** [obj[k] = v] on a property list: an existing key keeps its place. *)
Fixpoint assoc_set (k : string) (v : value) (props : list (string * value))
  : list (string * value) :=
  match props with
  | [] => [(k, v)]
  | (k', v') :: rest =>
      if String.eqb k k' then (k, v) :: rest
      else (k', v') :: assoc_set k v rest
  end.

Definition chars (s : string) : list value :=
  (λ c, VStr (String c EmptyString)) <$> String.list_ascii_of_string s.

(** Own enumerable properties, as copied by the spread [{...v}]. *)
Definition own_props (v : value) : list (string * value) :=
  match v with
  | VObj props => props
  | VArr items => imap (λ i x, (pretty i, x)) items
  | VStr s => imap (λ i x, (pretty i, x)) (chars s)
  | _ => []
  end.

(** [Object.values(v)] for a non-nullish [v]. *)
Definition object_values (v : value) : list value :=
  (own_props v).*2.

(** ** Awaited promises

    A backend call either resolves with the parsed body or rejects with an
    [Error] whose [message] the handlers read. *)

Inductive outcome (A : Type) : Type :=
  | Resolved (result : A)
  | Rejected (message : string).
Arguments Resolved {A} result.
Arguments Rejected {A} message.

(** [Promise.all([a, b])]: resolves with both results, rejects with the
    rejection that settles first; [second_first] says that [b] settles
    before [a]. *)
Definition promise_all (second_first : bool) (a b : outcome value)
  : outcome (value * value) :=
  match a, b with
  | Resolved x, Resolved y => Resolved (x, y)
  | Rejected m, Resolved _ => Rejected m
  | Resolved _, Rejected m => Rejected m
  | Rejected ma, Rejected mb => Rejected (if second_first then mb else ma)
  end.

(** The calls of [apiClient] that the pages and the auth context await. *)
Record ApiClient : Type := {
  api_signup : value → outcome value;
  api_login : value → outcome value;
  api_logout : value → outcome value;
  api_startQuiz : value → outcome value;
  api_fetchQuizQuestions : value → outcome value;
  api_getDashboard : value → outcome value;
  api_getLessonPlan : value → outcome value
}.

(** ** QuizPage.jsx *)

Module QuizPage.

Definition normalizeQuestions (payload : value) : list value :=
  if negb (truthy payload) then []
  else if isArray (get "questions" payload) then items_of (get "questions" payload)
  else if isArray payload then items_of payload
  else [].

Definition getQuestionId (question : value) (fallbackIndex : nat) : value :=
  if truthy (get "question_number" question)
  then VStr ("question-" +:+ to_string (get "question_number" question))
  else coalesce (get "id" question)
         (coalesce (get "questionId" question)
            (VStr ("q-" +:+ pretty fallbackIndex))).

(** The form offers 5, 10 and 15 questions; [questionCount] is the number
    that [Number(config.questionCount)] sends. *)
Record QuizConfig : Type := {
  level : string;
  questionCount : Z;
  focus : string
}.

Definition defaultQuizConfig : QuizConfig :=
  {| level := "intermediate"; questionCount := 10; focus := "Vocabulary" |}.

Record Status : Type := {
  loading : bool;
  error : option string
}.

(** [answers] is a plain object used as a map from property key to the chosen
    value; every value stored in it is a string. *)
Record QuizState : Type := {
  config : QuizConfig;
  session : value;
  questions : list value;
  answers : gmap string string;
  submission : value;
  status : Status
}.

Definition initialQuizState : QuizState :=
  {| config := defaultQuizConfig; session := VNull; questions := [];
     answers := ∅; submission := VNull;
     status := {| loading := false; error := None |} |}.

Definition setSession (v : value) (st : QuizState) : QuizState :=
  {| config := config st; session := v; questions := questions st;
     answers := answers st; submission := submission st; status := status st |}.

Definition setQuestions (qs : list value) (st : QuizState) : QuizState :=
  {| config := config st; session := session st; questions := qs;
     answers := answers st; submission := submission st; status := status st |}.

Definition setAnswers (a : gmap string string) (st : QuizState) : QuizState :=
  {| config := config st; session := session st; questions := questions st;
     answers := a; submission := submission st; status := status st |}.

Definition setSubmission (v : value) (st : QuizState) : QuizState :=
  {| config := config st; session := session st; questions := questions st;
     answers := answers st; submission := v; status := status st |}.

Definition setStatus (s : Status) (st : QuizState) : QuizState :=
  {| config := config st; session := session st; questions := questions st;
     answers := answers st; submission := submission st; status := s |}.

(** Conversion of a computed member name to a property key. *)
Definition to_property_key (v : value) : string := to_string v.

(** [array.reduce((acc, item, index) => ..., init)] *)
Fixpoint reduce_from {A : Type} (f : A → value → nat → A)
    (index : nat) (items : list value) (acc : A) : A :=
  match items with
  | [] => acc
  | item :: rest => reduce_from f (S index) rest (f acc item index)
  end.

Definition reduce {A : Type} (f : A → value → nat → A)
    (items : list value) (init : A) : A :=
  reduce_from f 0 items init.

(** The property key under which the answer to a question is kept. *)
Definition answerKey (question : value) (index : nat) : string :=
  to_property_key (getQuestionId question index).

(** The template literal of [getQuestionId] throws a TypeError when the
    [question_number] it prints does not convert. *)
Definition getQuestionId_throws (question : value) : bool :=
  truthy (get "question_number" question)
  && negb (converts (get "question_number" question)).

(** Whether the property key of a question is obtained without a TypeError:
    neither [getQuestionId] nor the conversion of its result to a key
    throws. *)
Definition answerKey_defined (question : value) (index : nat) : bool :=
  negb (getQuestionId_throws question)
  && converts (getQuestionId question index).

Definition keysDefined (qs : list value) : bool :=
  forallb id (imap (λ index question, answerKey_defined question index) qs).

(** The reducer of [startQuiz]: [acc[getQuestionId(question, index)] = '']
    on a plain object. A key the object owns, or any new key but one, is
    stored; an assignment to the unowned key [__proto__] reaches the setter
    inherited from [Object.prototype], which ignores a string and stores
    nothing. *)
Definition blankStep (acc : gmap string string) (question : value)
    (index : nat) : gmap string string :=
  match acc !! answerKey question index with
  | Some _ => <[answerKey question index := ""]> acc
  | None =>
      if String.eqb (answerKey question index) "__proto__" then acc
      else <[answerKey question index := ""]> acc
  end.

Definition blankAnswers (nextQuestions : list value) : gmap string string :=
  reduce blankStep nextQuestions ∅.

(** [x > 0]. A string operand is converted to a number by the engine;
    [string_positive] tells whether that number is above zero. *)
Definition gt_zero (string_positive : string → bool) (x : value) : bool :=
  match x with
  | VUndefined | VNull | VObj _ => false
  | VBool b => b
  | VNum n => (0 <? n)%Z
  | VStr s => string_positive s
  | VArr _ => string_positive (to_string x)
  end.

(** [x > 0] throws a TypeError when its object or array operand does not
    convert to a primitive. *)
Definition gt_zero_throws (x : value) : bool :=
  match x with
  | VArr _ | VObj _ => negb (converts x)
  | _ => false
  end.

(** The body sent to [/api/quiz/start]. *)
Definition startPayload (demoUserId : string) (c : QuizConfig) : value :=
  VObj [("user_id", VStr demoUserId); ("level", VStr (level c));
        ("question_count", VNum (questionCount c)); ("focus", VStr (focus c))].

(** [{ ...response, sessionId, focus: config.focus }] *)
Definition sessionOf (response sessionId : value) (c : QuizConfig) : value :=
  VObj (assoc_set "focus" (VStr (focus c))
          (assoc_set "sessionId" sessionId (own_props response))).

(** [type_error] is the [message] of the TypeError that the engine throws
    when a conversion fails; like a rejection, it is caught by the handler's
    [catch] and ends up in [status.error]. *)
Definition startQuiz (string_positive : string → bool) (type_error : string)
    (demoUserId : string) (apiClient : ApiClient) (st0 : QuizState)
  : QuizState :=
  let st := setStatus {| loading := true; error := None |} st0 in
  let st := setSubmission VNull st in
  match api_startQuiz apiClient (startPayload demoUserId (config st0)) with
  | Rejected message => setStatus {| loading := false; error := Some message |} st
  | Resolved response =>
      let sessionId :=
        coalesce (get "session_id" response)
          (coalesce (get "sessionId" response) (get "id" response)) in
      let st := setSession (sessionOf response sessionId (config st0)) st in
      let questionsPayload :=
        if gt_zero_throws (get "length" (get "questions" response))
        then Rejected type_error
        else if gt_zero string_positive
                  (get "length" (get "questions" response))
        then Resolved response
        else api_fetchQuizQuestions apiClient sessionId in
      match questionsPayload with
      | Rejected message =>
          setStatus {| loading := false; error := Some message |} st
      | Resolved payload =>
          let nextQuestions := normalizeQuestions payload in
          let st := setQuestions nextQuestions st in
          if keysDefined nextQuestions then
            let st := setAnswers (blankAnswers nextQuestions) st in
            setStatus {| loading := false; error := None |} st
          else setStatus {| loading := false; error := Some type_error |} st
      end
  end.

Definition handleAnswerChange (questionKey : value) (choiceValue : string)
    (st : QuizState) : QuizState :=
  setAnswers (<[to_property_key questionKey := choiceValue]> (answers st)) st.

(** [Object.values(answers).filter((value) => value !== '').length] *)
Definition answeredCount (a : gmap string string) : nat :=
  length (filter (λ v, v ≠ "") (map_to_list a).*2).

Definition allAnswered (qs : list value) (a : gmap string string) : bool :=
  (0 <? length qs)%nat && (answeredCount a =? length qs)%nat.

(** *** The rest of QuizPage.jsx: options, submission *)

Definition getOptions (question : value) : value :=
  js_or (js_or (js_or (js_or (get "choices" question) (get "answers" question))
                  (get "options" question))
           (get "choicesList" question))
    (VArr []).

(** [choice?.label ?? choice?.text ?? choice] *)
Definition choiceLabel (choice : value) : value :=
  coalesce (get "label" choice) (coalesce (get "text" choice) choice).

(** [String(choice?.value ?? choice?.id ?? choice)] *)
Definition choiceValue (choice : value) : string :=
  to_string (coalesce (get "value" choice) (coalesce (get "id" choice) choice)).

(** The [checked] attribute of a radio: [answers[questionId] === choiceValue] *)
Definition checked (a : gmap string string) (questionId : value)
    (choice : value) : bool :=
  match a !! to_property_key questionId with
  | Some chosen => String.eqb chosen (choiceValue choice)
  | None => false
  end.

(** [questions.map((question, index) => answers[getQuestionId(...)] ?? '')] *)
Definition formattedAnswers (qs : list value) (a : gmap string string)
  : list string :=
  imap (λ index question,
          default "" (a !! to_property_key (getQuestionId question index)))
       qs.

(** The body sent to [/api/quiz/submit]. *)
Definition submitPayload (demoUserId : string) (st : QuizState) : value :=
  VObj [("session_id",
         js_or (get "sessionId" (session st)) (get "session_id" (session st)));
        ("user_id", VStr demoUserId);
        ("answers", VArr (VStr <$> formattedAnswers (questions st) (answers st)))].


End QuizPage.

(** ** DashboardPage.jsx *)

Module DashboardPage.

Definition normalizeLessons (lessonPlan : value) : list value :=
  if negb (truthy lessonPlan) then []
  else if isArray lessonPlan then items_of lessonPlan
  else if isArray (get "lessons" lessonPlan) then items_of (get "lessons" lessonPlan)
  else if truthy (get "plan" lessonPlan) && isArray (get "plan" lessonPlan)
       then items_of (get "plan" lessonPlan)
  else if truthy (get "sections" lessonPlan) && isArray (get "sections" lessonPlan)
       then items_of (get "sections" lessonPlan)
  else filter (λ entry, typeof_object entry = true) (object_values lessonPlan).

Record State : Type := {
  dashboardData : value;
  lessonPlan : list value;
  loading : bool;
  error : option string
}.

Definition initialState : State :=
  {| dashboardData := VNull; lessonPlan := []; loading := false; error := None |}.

Definition setDashboardData (v : value) (st : State) : State :=
  {| dashboardData := v; lessonPlan := lessonPlan st;
     loading := loading st; error := error st |}.

Definition setLessonPlan (l : list value) (st : State) : State :=
  {| dashboardData := dashboardData st; lessonPlan := l;
     loading := loading st; error := error st |}.

Definition setLoading (b : bool) (st : State) : State :=
  {| dashboardData := dashboardData st; lessonPlan := lessonPlan st;
     loading := b; error := error st |}.

Definition setError (e : option string) (st : State) : State :=
  {| dashboardData := dashboardData st; lessonPlan := lessonPlan st;
     loading := loading st; error := e |}.

(** [token] comes from the auth context; [second_first] is the order in which
    the two requests settle. *)
Definition fetchAllData (second_first : bool) (apiClient : ApiClient)
    (token : value) (st0 : State) : State :=
  if negb (truthy token) then st0
  else
    let st := setLoading true st0 in
    let st := setError None st in
    let st :=
      match promise_all second_first
              (api_getDashboard apiClient token)
              (api_getLessonPlan apiClient token) with
      | Resolved (dashboardResponse, lessonPlanResponse) =>
          let st := setDashboardData dashboardResponse st in
          setLessonPlan (normalizeLessons lessonPlanResponse) st
      | Rejected message => setError (Some message) st
      end in
    setLoading false st.

(** The four figures of the dashboard header, with their labels; [None]
    when the template literal of the streak throws a TypeError, which fails
    the render. *)
Definition stats (dashboardData user : value)
  : option (list (string * value)) :=
  let summary := js_or (get "summary" dashboardData) dashboardData in
  if truthy (get "streakDays" summary)
     && negb (converts (get "streakDays" summary))
  then None
  else Some
  [("Current score", coalesce (get "currentScore" summary) (VStr "—"));
   ("Target score",
    coalesce (get "targetScore" summary)
      (coalesce (get "targetScore" user) (VStr "—")));
   ("Words mastered",
    coalesce (get "wordsMastered" summary)
      (coalesce (get "words" summary) (VStr "—")));
   ("Practice streak",
    if truthy (get "streakDays" summary)
    then VStr (to_string (get "streakDays" summary) +:+ " days")
    else VStr "0 days")].

End DashboardPage.

(** ** AuthContext.jsx: the identity store

    [authState] is the React state object [{ user, token }]; [stored] is the
    [localStorage] slot under [STORAGE_KEY], absent when [None]. *)

Module AuthContext.

Record Store : Type := {
  authState : value;
  stored : option string;
  isAuthenticating : bool
}.

Definition user (st : Store) : value := get "user" (authState st).
Definition token (st : Store) : value := get "token" (authState st).

(** [Boolean(token)] *)
Definition isAuthenticated (st : Store) : bool := truthy (token st).

Definition identity (u t : value) : value :=
  VObj [("user", u); ("token", t)].

Definition getStoredAuth (has_window : bool)
    (JSON_parse : string → option value) (slot : option string) : value :=
  if negb has_window then identity VNull VNull
  else
    match slot with
    | None => identity VNull VNull
    | Some raw =>
        if String.eqb raw "" then identity VNull VNull
        else
          match JSON_parse raw with
          | Some parsed => parsed
          | None => identity VNull VNull
          end
    end.

(** The provider's first render: [useState(getStoredAuth)]. *)
Definition init (has_window : bool) (JSON_parse : string → option value)
    (slot : option string) : Store :=
  {| authState := getStoredAuth has_window JSON_parse slot;
     stored := slot; isAuthenticating := false |}.

Definition setAuthState (v : value) (st : Store) : Store :=
  {| authState := v; stored := stored st;
     isAuthenticating := isAuthenticating st |}.

Definition setIsAuthenticating (b : bool) (st : Store) : Store :=
  {| authState := authState st; stored := stored st; isAuthenticating := b |}.

Definition removeItem (st : Store) : Store :=
  {| authState := authState st; stored := None;
     isAuthenticating := isAuthenticating st |}.

Definition setItem (raw : string) (st : Store) : Store :=
  {| authState := authState st; stored := Some raw;
     isAuthenticating := isAuthenticating st |}.

Definition persistState (has_window : bool) (JSON_stringify : value → string)
    (nextState : value) (st : Store) : Store :=
  if negb has_window then setAuthState nextState st
  else
    let st := setAuthState nextState st in
    if negb (truthy (get "token" nextState)) then removeItem st
    else setItem (JSON_stringify nextState) st.

(** Returns the store after the call and what the caller's [await] sees. *)
Definition authenticate (has_window : bool) (JSON_stringify : value → string)
    (apiClient : ApiClient) (action : string) (payload : value) (st0 : Store)
  : Store * outcome value :=
  let st := setIsAuthenticating true st0 in
  match (if String.eqb action "signup" then api_signup apiClient payload
         else api_login apiClient payload) with
  | Resolved response =>
      let nextState :=
        identity (coalesce (get "user" response) VNull)
                 (coalesce (get "token" response) VNull) in
      let st := persistState has_window JSON_stringify nextState st in
      (setIsAuthenticating false st, Resolved response)
  | Rejected message => (setIsAuthenticating false st, Rejected message)
  end.

Definition signup (has_window : bool) (JSON_stringify : value → string)
    (apiClient : ApiClient) (formValues : value) (st : Store) :=
  authenticate has_window JSON_stringify apiClient "signup" formValues st.

Definition login (has_window : bool) (JSON_stringify : value → string)
    (apiClient : ApiClient) (formValues : value) (st : Store) :=
  authenticate has_window JSON_stringify apiClient "login" formValues st.

(** A failed logout request is only logged. *)
Definition logout (has_window : bool) (JSON_stringify : value → string)
    (apiClient : ApiClient) (st : Store) : Store :=
  let _ := if truthy (token st) then Some (api_logout apiClient (token st))
           else None in
  persistState has_window JSON_stringify (identity VNull VNull) st.

End AuthContext.

(** ** apiClient.js: request, from the moment [fetch] has resolved *)

Module Http.

(** [status] is the status code of the response, a number of at most five
    digits in every engine; [text] is the body as [response.text()] reads
    it. *)
Record Response : Type := {
  status : Z;
  text : string
}.

(** [response.ok] *)
Definition ok (response : Response) : bool :=
  (200 <=? status response)%Z && (status response <=? 299)%Z.

(** What the call settles to, and whether the parse warning was logged. *)
Record Settled : Type := {
  settled : outcome value;
  warned : bool
}.

(** [type_error] is the [message] of the TypeError that [new Error(message)]
    throws when [message] does not convert to a string. *)
Definition request (JSON_parse : string → option value) (type_error : string)
    (response : Response) : Settled :=
  let '(data, warning) :=
    if negb (String.eqb (text response) "") then
      match JSON_parse (text response) with
      | Some parsed => (parsed, false)
      | None => (VUndefined, true)
      end
    else (VUndefined, false) in
  if negb (ok response) then
    let message :=
      js_or (get "message" data)
            (VStr ("Request failed with status " +:+ pretty (status response))) in
    {| settled :=
         Rejected (if converts message then to_string message
                   else type_error);
       warned := warning |}
  else {| settled := Resolved data; warned := warning |}.

(** [s.replace(/\/$/, '')]: one trailing slash is dropped. *)
Fixpoint strip_trailing_slash (s : string) : string :=
  match s with
  | EmptyString => EmptyString
  | String c rest =>
      match rest with
      | EmptyString => if String.eqb s "/" then EmptyString else s
      | String _ _ => String c (strip_trailing_slash rest)
      end
  end.

(** [env] is [import.meta.env.VITE_API_BASE_URL], [None] when unset. *)
Definition API_BASE_URL (env : option string) : string :=
  strip_trailing_slash
    (match env with
     | Some configured =>
         if String.eqb configured "" then "http://localhost:8000"
         else configured
     | None => "http://localhost:8000"
     end).

(** [path.startsWith('/')] *)
Definition startsWith_slash (path : string) : bool :=
  match path with
  | String c _ => String.eqb (String c EmptyString) "/"
  | EmptyString => false
  end.

Definition buildUrl (env : option string) (path : string) : string :=
  let normalizedPath :=
    if startsWith_slash path then path else "/" +:+ path in
  API_BASE_URL env +:+ normalizedPath.

End Http.

(** ** App.jsx: ProtectedRoute *)

Module App.

Inductive Screen : Type :=
  | Checking
  | RedirectToAuth
  | Children.

Definition ProtectedRoute (st : AuthContext.Store) : Screen :=
  if AuthContext.isAuthenticating st then Checking
  else if negb (AuthContext.isAuthenticated st) then RedirectToAuth
  else Children.

End App.

(** ** AuthPage.jsx: the sign-in form

    [formValues] is the form object, kept as its property list; it is created
    by the component and only ever updated through [handleInputChange]. *)

Module AuthPage.

Record Feedback : Type := {
  error : option string;
  success : option string
}.

Record State : Type := {
  mode : string;
  formValues : list (string * value);
  feedback : Feedback
}.

Definition initialFormState : list (string * value) :=
  [("fullName", VStr ""); ("email", VStr ""); ("password", VStr "");
   ("targetScore", VStr "100")].

Definition initialState : State :=
  {| mode := "login"; formValues := initialFormState;
     feedback := {| error := None; success := None |} |}.

(** [setFormValues((prev) => ({ ...prev, [name]: value }))] *)
Definition handleInputChange (name value : string) (st : State) : State :=
  {| mode := mode st;
     formValues := assoc_set name (VStr value) (formValues st);
     feedback := feedback st |}.

Definition toggleMode (nextMode : string) (st : State) : State :=
  {| mode := nextMode; formValues := formValues st;
     feedback := {| error := None; success := None |} |}.

(** What a submit leaves behind: the page, the identity store, and whether
    [navigate('/')] was called. Navigating leaves the [/auth] route, which
    unmounts the page and discards its state: [page] is then [None]. *)
Record Submitted : Type := {
  page : option State;
  store : AuthContext.Store;
  navigated : bool
}.

Definition setFeedback (f : Feedback) (st : State) : State :=
  {| mode := mode st; formValues := formValues st; feedback := f |}.

Definition handleSubmit (has_window : bool) (JSON_stringify : value → string)
    (apiClient : ApiClient) (st0 : State) (auth : AuthContext.Store)
  : Submitted :=
  let st := setFeedback {| error := None; success := None |} st0 in
  if String.eqb (mode st0) "signup" then
    match AuthContext.signup has_window JSON_stringify apiClient
            (VObj (formValues st0)) auth with
    | (auth', Resolved _) =>
        {| page := None; store := auth'; navigated := true |}
    | (auth', Rejected message) =>
        {| page :=
             Some (setFeedback {| error := Some message; success := None |} st);
           store := auth'; navigated := false |}
    end
  else
    match AuthContext.login has_window JSON_stringify apiClient
            (VObj [("email", assoc "email" (formValues st0));
                   ("password", assoc "password" (formValues st0))]) auth with
    | (auth', Resolved _) =>
        {| page := None; store := auth'; navigated := true |}
    | (auth', Rejected message) =>
        {| page :=
             Some (setFeedback {| error := Some message; success := None |} st);
           store := auth'; navigated := false |}
    end.

End AuthPage.

(** ** Sequences of auth operations

    Each operation comes with the backend as it answers at that moment. *)

Inductive AuthOperation : Type :=
  | DoSignup (formValues : value)
  | DoLogin (formValues : value)
  | DoLogout.

Definition perform (has_window : bool) (JSON_stringify : value → string)
    (st : AuthContext.Store) (step : ApiClient * AuthOperation)
  : AuthContext.Store :=
  match step.2 with
  | DoSignup formValues =>
      (AuthContext.signup has_window JSON_stringify step.1 formValues st).1
  | DoLogin formValues =>
      (AuthContext.login has_window JSON_stringify step.1 formValues st).1
  | DoLogout => AuthContext.logout has_window JSON_stringify step.1 st
  end.

Definition perform_all (has_window : bool) (JSON_stringify : value → string)
    (steps : list (ApiClient * AuthOperation)) (st : AuthContext.Store)
  : AuthContext.Store :=
  fold_left (perform has_window JSON_stringify) steps st.

(** Durable storage mirrors memory: the slot holds the serialised in-memory
    identity when the session is authenticated and is empty otherwise. *)
Definition storage_mirrors_memory (JSON_stringify : value → string)
    (st : AuthContext.Store) : Prop :=
  if AuthContext.isAuthenticated st
  then AuthContext.stored st = Some (JSON_stringify (AuthContext.authState st))
  else AuthContext.stored st = None.

(** ** The Identity invariant as the specification words it

    The token is null exactly when the session is unauthenticated, and a
    null token goes with a null user. *)

Definition identity_invariant (st : AuthContext.Store) : Prop :=
  (AuthContext.token st = VNull ↔ AuthContext.isAuthenticated st = false)
  ∧ (AuthContext.token st = VNull → AuthContext.user st = VNull).

(** ** The normalisation policy as the specification words it

    Kept apart from the code: the first list-valued field among the aliases
    [questions], [lessons], [plan], [sections], otherwise the own values that
    are not primitives. It is compared with the two normalisers below. *)

Definition first_list_alias (p : value) : option (list value) :=
  if isArray (get "questions" p) then Some (items_of (get "questions" p))
  else if isArray (get "lessons" p) then Some (items_of (get "lessons" p))
  else if isArray (get "plan" p) then Some (items_of (get "plan" p))
  else if isArray (get "sections" p) then Some (items_of (get "sections" p))
  else None.

Definition alias_policy_spec (p : value) : list value :=
  match first_list_alias p with
  | Some l => l
  | None => filter (λ entry, structured entry = true) (object_values p)
  end.

(** ** Sample backends and payloads used in the worked runs *)

Module Samples.

(** A backend whose every call settles the same way whatever it is sent. *)
Definition constClient
    (signup login logout start questions dashboard lessons : outcome value)
  : ApiClient :=
  {| api_signup := λ _, signup;
     api_login := λ _, login;
     api_logout := λ _, logout;
     api_startQuiz := λ _, start;
     api_fetchQuizQuestions := λ _, questions;
     api_getDashboard := λ _, dashboard;
     api_getLessonPlan := λ _, lessons |}.

Definition unreachable : outcome value := Rejected "Failed to fetch".

Definition server_error : outcome value :=
  Rejected "Request failed with status 500".

(** A start response that embeds its two questions. *)
Definition startResponse1 : value :=
  VObj [("session_id", VStr "s1");
        ("questions",
         VArr [VObj [("question_number", VNum 1); ("prompt", VStr "terse")];
               VObj [("id", VStr "w7"); ("prompt", VStr "lucid")]])].

(** A start response without questions. *)
Definition startResponse2 : value :=
  VObj [("session_id", VStr "s2")].

Definition quizBackend1 : ApiClient :=
  constClient unreachable unreachable unreachable
    (Resolved startResponse1) unreachable unreachable unreachable.

(** The start call succeeds, the follow-up questions fetch fails. *)
Definition quizBackend2 : ApiClient :=
  constClient unreachable unreachable unreachable
    (Resolved startResponse2) server_error unreachable unreachable.

(** No string operand converts to a positive number. *)
Definition no_positive_string : string → bool := λ _, false.

(** The wording of one engine's TypeError; no sample run raises one unless
    it says so. *)
Definition type_error_text : string :=
  "Cannot convert object to primitive value".

(** The page after a first quiz was started and one answer was chosen. *)
Definition activeState : QuizPage.QuizState :=
  QuizPage.handleAnswerChange (VStr "question-1") "brief"
    (QuizPage.startQuiz no_positive_string type_error_text "demo-user"
       quizBackend1 QuizPage.initialQuizState).

(** A login response that carries a user record and no token. *)
Definition loginResponseNoToken : value :=
  VObj [("user", VObj [("email", VStr "ana@example.com")])].

Definition authBackend : ApiClient :=
  constClient unreachable (Resolved loginResponseNoToken) unreachable
    unreachable unreachable unreachable unreachable.

Definition credentials : value :=
  VObj [("email", VStr "ana@example.com"); ("password", VStr "correct horse")].

(** The summary arrives, the lesson plan is refused. *)
Definition dashboardBackend : ApiClient :=
  constClient unreachable unreachable unreachable unreachable unreachable
    (Resolved (VObj [("currentScore", VNum 92)])) server_error.

Definition shownDashboard : DashboardPage.State :=
  {| DashboardPage.dashboardData := VObj [("currentScore", VNum 88)];
     DashboardPage.lessonPlan := [VObj [("title", VStr "Prefixes")]];
     DashboardPage.loading := false;
     DashboardPage.error := None |}.

(** The double-quote character, for writing JSON texts. *)
Definition dq : string := String (Ascii.ascii_of_nat 34) EmptyString.

(** The JSON text of an object with the single string field [message]. *)
Definition messageText (m : string) : string :=
  "{" +:+ dq +:+ "message" +:+ dq +:+ ":" +:+ dq +:+ m +:+ dq +:+ "}".

(** [JSON.parse] on the texts above, failing on any other text. *)
Definition parseMessageText (raw : string) : option value :=
  if String.eqb raw (messageText "") then Some (VObj [("message", VStr "")])
  else if String.eqb raw (messageText "Invalid credentials")
       then Some (VObj [("message", VStr "Invalid credentials")])
  else None.

(** A lesson plan keyed by day, with a primitive field beside the records. *)
Definition lessonsByDay : value :=
  VObj [("generatedAt", VStr "2024-05-01");
        ("monday", VObj [("title", VStr "Prefixes")]);
        ("tuesday", VObj [("title", VStr "Roots")])].

End Samples.

(** ** Further sample data *)

Module MoreSamples.

Definition numberedQuestions : list value :=
  [VObj [("question_number", VNum 1); ("prompt", VStr "terse")];
   VObj [("question_number", VNum 2); ("prompt", VStr "lucid")]].

(** Two questions that the backend numbered alike. *)
Definition twinQuestions : list value :=
  [VObj [("question_number", VNum 1); ("prompt", VStr "terse")];
   VObj [("question_number", VNum 1); ("prompt", VStr "lucid")]].

(** Questions without any id of their own. *)
Definition bareQuestions : list value :=
  [VObj [("prompt", VStr "terse")]; VObj [("prompt", VStr "lucid")]].

Definition bothAnswered : gmap string string :=
  <["question-1" := "brief"]> (<["question-2" := "clear"]> ∅).

(** A login response with a user record and a token. *)
Definition loginResponseToken : value :=
  VObj [("user", VObj [("email", VStr "ana@example.com")]);
        ("token", VStr "t-1")].

Definition tokenBackend : ApiClient :=
  Samples.constClient Samples.unreachable (Resolved loginResponseToken)
    Samples.unreachable Samples.unreachable Samples.unreachable
    Samples.unreachable Samples.unreachable.

(** The JSON text of the identity that this login stores. *)
Definition identityText : string :=
  "{" +:+ Samples.dq +:+ "user" +:+ Samples.dq +:+ ":{"
  +:+ Samples.dq +:+ "email" +:+ Samples.dq +:+ ":"
  +:+ Samples.dq +:+ "ana@example.com" +:+ Samples.dq +:+ "},"
  +:+ Samples.dq +:+ "token" +:+ Samples.dq +:+ ":"
  +:+ Samples.dq +:+ "t-1" +:+ Samples.dq +:+ "}".

(** [JSON.stringify] on that identity, the one value serialised in the run. *)
Definition stringifyIdentity : value → string := λ _, identityText.

(** [JSON.parse] on that text, failing on any other text. *)
Definition parseIdentity (raw : string) : option value :=
  if String.eqb raw identityText
  then Some (AuthContext.identity
               (VObj [("email", VStr "ana@example.com")]) (VStr "t-1"))
  else None.

(** A lesson plan under [lessons] beside a field holding null. *)
Definition lessonsWithNull : value :=
  VObj [("lessons", VArr [VObj [("title", VStr "Roots")]]); ("next", VNull)].

(** A start response one of whose questions has the id [__proto__]. *)
Definition startResponseProto : value :=
  VObj [("session_id", VStr "s3");
        ("questions",
         VArr [VObj [("id", VStr "__proto__"); ("prompt", VStr "terse")];
               VObj [("id", VStr "w7"); ("prompt", VStr "lucid")]])].

Definition quizBackendProto : ApiClient :=
  Samples.constClient Samples.unreachable Samples.unreachable
    Samples.unreachable (Resolved startResponseProto) Samples.unreachable
    Samples.unreachable Samples.unreachable.

(** A start response whose question has an id that does not convert to a
    property key. *)
Definition startResponseOddId : value :=
  VObj [("session_id", VStr "s4");
        ("questions",
         VArr [VObj [("id", VObj [("toString", VNull)]);
                     ("prompt", VStr "terse")]])].

Definition quizBackendOddId : ApiClient :=
  Samples.constClient Samples.unreachable Samples.unreachable
    Samples.unreachable (Resolved startResponseOddId) Samples.unreachable
    Samples.unreachable Samples.unreachable.

End MoreSamples.

(** * Properties *)

(** ** Payload normaliser on lists *)

(** C7. Identity law on lists: for every payload [p] that is an array,
    [normalizeQuestions(p)] is [p] itself, and [normalizeLessons] likewise
    returns an array input as it is. *)
Theorem normalize_array_identity (items : list value) :
  let p := VArr items in
  VArr (QuizPage.normalizeQuestions p) = p ∧
  VArr (DashboardPage.normalizeLessons p) = p.
Proof. intros p. split; reflexivity. Qed.

(** ** Recording answers *)

(** C9. Idempotence of recording an answer: applying
    [handleAnswerChange(id, v)] twice in succession leaves the same AnswerMap
    (and the same component state) as applying it once. *)
Theorem handleAnswerChange_idempotent
    (st : QuizPage.QuizState) (questionKey : value) (choiceValue : string) :
  QuizPage.handleAnswerChange questionKey choiceValue
    (QuizPage.handleAnswerChange questionKey choiceValue st)
  = QuizPage.handleAnswerChange questionKey choiceValue st.
Proof.
  destruct st as [c s q a sub stat].
  unfold QuizPage.handleAnswerChange, QuizPage.setAnswers; simpl.
  f_equal. apply insert_insert_eq.
Qed.

(** ** Question ids *)

Lemma fallback_id_not_question_0 (i : nat) :
  VStr ("q-" +:+ pretty i) ≠ VStr "question-0".
Proof. simpl. intros H. inversion H. Qed.

(** The claim C10 as it is worded fails in its last part: with a
    [question_number] of 0 the id ["question-0"] is still produced when the
    record's own [id] field is that string. *)
Lemma getQuestionId_zero_number_counterexample :
  ¬ (∀ (question : value) (fallbackIndex : nat),
       get "question_number" question = VNum 0 →
       QuizPage.getQuestionId question fallbackIndex ≠ VStr "question-0").
Proof.
  intros Hclaim.
  apply (Hclaim (VObj [("question_number", VNum 0);
                       ("id", VStr "question-0")]) 0%nat);
    reflexivity.
Qed.

(** C10, amended. When [question_number] is falsy (absent, null, 0 or the
    empty string), [getQuestionId] ignores it and returns the [id] field,
    else the [questionId] field, else the positional fallback
    ["q-" + index]. A [question_number] of 0 is thus never itself turned into
    an id: the result is ["question-0"] exactly when the [id] field is that
    string, or [id] is absent or null and the [questionId] field is that
    string. *)
Theorem getQuestionId_falsy_number (question : value) (fallbackIndex : nat) :
  truthy (get "question_number" question) = false →
  QuizPage.getQuestionId question fallbackIndex
  = coalesce (get "id" question)
      (coalesce (get "questionId" question)
         (VStr ("q-" +:+ pretty fallbackIndex)))
  ∧ (QuizPage.getQuestionId question fallbackIndex = VStr "question-0"
     ↔ get "id" question = VStr "question-0"
       ∨ (nullish (get "id" question) = true
          ∧ get "questionId" question = VStr "question-0")).
Proof.
  intros Hfalsy. unfold QuizPage.getQuestionId. rewrite Hfalsy.
  split; [reflexivity |]. unfold coalesce.
  destruct (nullish (get "id" question)) eqn:Hid.
  - destruct (nullish (get "questionId" question)) eqn:Hqid.
    + split.
      * intros Hfallback. by apply fallback_id_not_question_0 in Hfallback.
      * intros [Heq | [_ Heq]]; rewrite Heq in *; discriminate.
    + split; [auto |].
      intros [Heq | [_ Heq]]; [rewrite Heq in Hid; discriminate | exact Heq].
  - split; [auto |]. intros [Heq | [Hn _]]; [exact Heq | discriminate].
Qed.

Lemma getQuestionId_falsy_number_witness :
  let q := VObj [("question_number", VNum 0); ("prompt", VStr "define: terse")] in
  truthy (get "question_number" q) = false ∧
  QuizPage.getQuestionId q 4 = VStr "q-4" ∧
  QuizPage.getQuestionId q 4 ≠ VStr "question-0".
Proof.
  intros q.
  assert (Hf : truthy (get "question_number" q) = false) by reflexivity.
  destruct (getQuestionId_falsy_number q 4 Hf) as [Heq Hiff].
  split; [exact Hf |]. split.
  - rewrite Heq. vm_compute. reflexivity.
  - intros Hzero. apply Hiff in Hzero as [Hid | [_ Hqid]];
      [vm_compute in Hid | vm_compute in Hqid]; discriminate.
Defined.

(** ** Progress of a quiz *)

Lemma answeredCount_empty : QuizPage.answeredCount ∅ = 0%nat.
Proof. unfold QuizPage.answeredCount. by rewrite map_to_list_empty. Qed.

Lemma answeredCount_insert (a : gmap string string) (k v : string) :
  a !! k = None →
  QuizPage.answeredCount (<[k:=v]> a)
  = ((if decide (v ≠ "") then 1 else 0) + QuizPage.answeredCount a)%nat.
Proof.
  intros Hfresh. unfold QuizPage.answeredCount.
  rewrite (map_to_list_insert a k v Hfresh). simpl.
  rewrite filter_cons. by destruct (decide (v ≠ "")).
Qed.

Lemma answeredCount_size (a : gmap string string) :
  QuizPage.answeredCount a = size (filter (λ kv : string * string, kv.2 ≠ "") a).
Proof.
  induction a as [| k v a Hfresh IH] using map_ind.
  - by rewrite answeredCount_empty, map_filter_empty, map_size_empty.
  - rewrite (answeredCount_insert a k v Hfresh), map_filter_insert. simpl.
    destruct (decide (v ≠ "")) as [Hv | Hv].
    + rewrite map_size_insert_None by (by apply map_lookup_filter_None_2; left).
      rewrite IH. reflexivity.
    + rewrite delete_id by done. rewrite IH. reflexivity.
Qed.

(** C8. [answeredCount] is the number of entries of the AnswerMap whose value
    is not the empty string; [allAnswered] holds exactly when that count
    equals [questions.length] and [questions.length > 0]; with an empty
    question list [allAnswered] is false, whatever the AnswerMap. *)
Theorem answeredCount_allAnswered
    (questions : list value) (answers : gmap string string) :
  QuizPage.answeredCount answers
  = size (filter (λ kv : string * string, kv.2 ≠ "") answers)
  ∧ (QuizPage.allAnswered questions answers = true ↔
     QuizPage.answeredCount answers = length questions ∧
     (length questions > 0)%nat)
  ∧ QuizPage.allAnswered [] answers = false
  ∧ QuizPage.allAnswered [] ∅ = false.
Proof.
  split; [apply answeredCount_size |]. split; [| split; reflexivity].
  unfold QuizPage.allAnswered.
  rewrite andb_true_iff, Nat.ltb_lt, Nat.eqb_eq. lia.
Qed.

(** ** The AnswerMap after a start *)

Lemma blankStep_dom (acc : gmap string string) (q : value) (i : nat) :
  dom (QuizPage.blankStep acc q i)
  = dom acc ∪ ({[QuizPage.answerKey q i]} ∖ {["__proto__"]}).
Proof.
  unfold QuizPage.blankStep.
  destruct (acc !! QuizPage.answerKey q i) as [v |] eqn:Hk.
  - rewrite dom_insert_L.
    assert (QuizPage.answerKey q i ∈ dom acc) by (apply elem_of_dom; eauto).
    set_solver.
  - destruct (String.eqb_spec (QuizPage.answerKey q i) "__proto__") as [-> | Hne].
    + set_solver.
    + rewrite dom_insert_L. set_solver.
Qed.

Lemma blankStep_lookup (acc : gmap string string) (q : value) (i : nat)
    (k v : string) :
  QuizPage.blankStep acc q i !! k = Some v → v = "" ∨ acc !! k = Some v.
Proof.
  unfold QuizPage.blankStep.
  destruct (acc !! QuizPage.answerKey q i) as [old |] eqn:Hk.
  - intros [[_ <-] | [_ Hacc]]%lookup_insert_Some; auto.
  - destruct (String.eqb (QuizPage.answerKey q i) "__proto__"); [auto |].
    intros [[_ <-] | [_ Hacc]]%lookup_insert_Some; auto.
Qed.

Lemma reduce_blank_dom (items : list value) :
  ∀ (index : nat) (acc : gmap string string),
    dom (QuizPage.reduce_from QuizPage.blankStep index items acc)
    = dom acc
      ∪ (list_to_set (imap (λ j q, QuizPage.answerKey q (index + j)) items)
         ∖ {["__proto__"]}).
Proof.
  induction items as [| item rest IH]; intros index acc; simpl.
  - set_solver.
  - rewrite IH, blankStep_dom.
    assert (imap ((λ j q, QuizPage.answerKey q (index + j)) ∘ S) rest
            = imap (λ j q, QuizPage.answerKey q (S index + j)) rest) as ->.
    { apply imap_ext. intros j q _. simpl. f_equal. lia. }
    rewrite Nat.add_0_r. set_solver.
Qed.

Lemma reduce_blank_lookup (items : list value) :
  ∀ (index : nat) (acc : gmap string string) (k v : string),
    QuizPage.reduce_from QuizPage.blankStep index items acc !! k = Some v →
    v = "" ∨ acc !! k = Some v.
Proof.
  induction items as [| item rest IH]; intros index acc k v; simpl.
  - auto.
  - intros Hk. destruct (IH _ _ _ _ Hk) as [-> | Hacc]; [by left |].
    by eapply blankStep_lookup.
Qed.

(** The keys of the blank AnswerMap are the ids of the questions, taken as
    property keys, except [__proto__]. *)
Lemma blankAnswers_dom (qs : list value) :
  dom (QuizPage.blankAnswers qs)
  = list_to_set (imap (λ index question, QuizPage.answerKey question index) qs)
    ∖ {["__proto__"]}.
Proof.
  unfold QuizPage.blankAnswers, QuizPage.reduce.
  rewrite reduce_blank_dom, dom_empty_L. simpl. set_solver.
Qed.

Lemma blankAnswers_lookup (qs : list value) (k v : string) :
  QuizPage.blankAnswers qs !! k = Some v → v = "".
Proof.
  unfold QuizPage.blankAnswers, QuizPage.reduce. intros Hk.
  destruct (reduce_blank_lookup _ _ _ _ _ Hk) as [-> | Hempty]; [done |].
  by rewrite lookup_empty in Hempty.
Qed.

(** A run of [startQuiz] that ends without an error has stored the blank
    AnswerMap of the question list it stored, and every key of that list was
    obtained without a TypeError. *)
Lemma startQuiz_success_answers
    (string_positive : string → bool) (type_error demoUserId : string)
    (apiClient : ApiClient) (st : QuizPage.QuizState) :
  QuizPage.error (QuizPage.status
    (QuizPage.startQuiz string_positive type_error demoUserId apiClient st))
  = None →
  QuizPage.answers
    (QuizPage.startQuiz string_positive type_error demoUserId apiClient st)
  = QuizPage.blankAnswers
      (QuizPage.questions
         (QuizPage.startQuiz string_positive type_error demoUserId apiClient
            st))
  ∧ QuizPage.keysDefined
      (QuizPage.questions
         (QuizPage.startQuiz string_positive type_error demoUserId apiClient
            st)) = true.
Proof.
  unfold QuizPage.startQuiz.
  destruct (api_startQuiz apiClient _) as [response | message]; simpl;
    [| discriminate].
  destruct (QuizPage.gt_zero_throws _); simpl; [discriminate |].
  destruct (QuizPage.gt_zero string_positive _); simpl.
  - destruct (QuizPage.keysDefined _) eqn:Hkeys; simpl; [done | discriminate].
  - destruct (api_fetchQuizQuestions apiClient _) as [payload | message];
      simpl; [| discriminate].
    destruct (QuizPage.keysDefined _) eqn:Hkeys; simpl; [done | discriminate].
Qed.

(** The question list that a successful [startQuiz] stores is the normalised
    payload it was given: the start response when that embeds questions, the
    answer of the questions endpoint otherwise. *)
Lemma startQuiz_success_questions
    (string_positive : string → bool) (type_error demoUserId : string)
    (apiClient : ApiClient) (st : QuizPage.QuizState) :
  QuizPage.error (QuizPage.status
    (QuizPage.startQuiz string_positive type_error demoUserId apiClient st))
  = None →
  ∃ response payload,
    api_startQuiz apiClient
      (QuizPage.startPayload demoUserId (QuizPage.config st))
    = Resolved response
    ∧ (if QuizPage.gt_zero string_positive
            (get "length" (get "questions" response))
       then payload = response
       else api_fetchQuizQuestions apiClient
              (coalesce (get "session_id" response)
                 (coalesce (get "sessionId" response) (get "id" response)))
            = Resolved payload)
    ∧ QuizPage.questions
        (QuizPage.startQuiz string_positive type_error demoUserId apiClient
           st)
      = QuizPage.normalizeQuestions payload.
Proof.
  unfold QuizPage.startQuiz.
  destruct (api_startQuiz apiClient _) as [response | message]; simpl;
    [| discriminate].
  destruct (QuizPage.gt_zero_throws _); simpl; [discriminate |].
  destruct (QuizPage.gt_zero string_positive _) eqn:Hgt; simpl.
  - intros _. exists response, response. rewrite Hgt.
    by destruct (QuizPage.keysDefined _).
  - destruct (api_fetchQuizQuestions apiClient _) as [payload | message]
      eqn:Hfetch; simpl; [| discriminate].
    intros _. exists response, payload. rewrite Hgt.
    by destruct (QuizPage.keysDefined _).
Qed.

(** What does hold after every successful [startQuiz]: the keys of the
    AnswerMap are the ids of the stored questions other than [__proto__], and
    every key is mapped to the empty string. *)
Lemma startQuiz_success_keys
    (string_positive : string → bool) (type_error demoUserId : string)
    (apiClient : ApiClient) (st : QuizPage.QuizState) :
  let st' :=
    QuizPage.startQuiz string_positive type_error demoUserId apiClient st in
  QuizPage.error (QuizPage.status st') = None →
  dom (QuizPage.answers st')
  = list_to_set
      (imap (λ index question,
               QuizPage.to_property_key (QuizPage.getQuestionId question index))
            (QuizPage.questions st'))
    ∖ {["__proto__"]}
  ∧ ∀ k : string, k ∈ dom (QuizPage.answers st') →
                  QuizPage.answers st' !! k = Some "".
Proof.
  intros st' Hok. subst st'.
  destruct (startQuiz_success_answers _ _ _ _ _ Hok) as [-> _].
  split; [apply blankAnswers_dom |].
  intros k [v Hv]%elem_of_dom.
  by rewrite Hv, (blankAnswers_lookup _ _ _ Hv).
Qed.

(** C5, at the failing run. The backend starts a quiz with two embedded
    questions whose ids are [__proto__] and [w7]. The start succeeds and both
    questions are stored, but the AnswerMap has the single key [w7]: the
    assignment [acc["__proto__"] = ''] stored nothing, so the key set is not
    the set of the question ids. *)
Theorem startQuiz_proto_id_not_stored :
  let st' := QuizPage.startQuiz Samples.no_positive_string
               Samples.type_error_text "demo-user"
               MoreSamples.quizBackendProto QuizPage.initialQuizState in
  QuizPage.status st'
  = {| QuizPage.loading := false; QuizPage.error := None |}
  ∧ imap (λ index question, QuizPage.getQuestionId question index)
         (QuizPage.questions st')
    = [VStr "__proto__"; VStr "w7"]
  ∧ QuizPage.answers st' = {["w7" := ""]}
  ∧ QuizPage.answers st' !! "__proto__" = None
  ∧ dom (QuizPage.answers st')
    ≠ list_to_set
        (imap (λ index question,
                 QuizPage.to_property_key
                   (QuizPage.getQuestionId question index))
              (QuizPage.questions st')).
Proof.
  intros st'.
  assert (Hanswers : QuizPage.answers st' = {["w7" := ""]})
    by (vm_compute; reflexivity).
  split; [vm_compute; reflexivity |].
  split; [vm_compute; reflexivity |].
  split; [exact Hanswers |].
  split; [by rewrite Hanswers |].
  rewrite Hanswers. intros Heq.
  assert (Hin : "__proto__" ∈ dom ({["w7" := ""]} : gmap string string)).
  { rewrite Heq. apply elem_of_list_to_set.
    apply (elem_of_lookup_imap_2
             (λ index question,
                QuizPage.to_property_key
                  (QuizPage.getQuestionId question index))
             (QuizPage.questions st')
             (VObj [("id", VStr "__proto__"); ("prompt", VStr "terse")]) 0).
    vm_compute. reflexivity. }
  rewrite dom_singleton_L in Hin. apply elem_of_singleton in Hin.
  discriminate Hin.
Qed.

(** ** Failure of a start *)

(** Whatever fails, a message ends up in [status.error] and the loading
    flag is lowered: the message of the rejected start call or questions
    fetch, or that of the TypeError of a failed conversion. *)
Lemma startQuiz_failure_status
    (string_positive : string → bool) (type_error demoUserId : string)
    (apiClient : ApiClient) (st : QuizPage.QuizState) (message : string) :
  QuizPage.error (QuizPage.status
    (QuizPage.startQuiz string_positive type_error demoUserId apiClient st))
  = Some message →
  QuizPage.loading (QuizPage.status
    (QuizPage.startQuiz string_positive type_error demoUserId apiClient st))
  = false
  ∧ (api_startQuiz apiClient
       (QuizPage.startPayload demoUserId (QuizPage.config st))
     = Rejected message
     ∨ (∃ sessionId, api_fetchQuizQuestions apiClient sessionId
                     = Rejected message)
     ∨ message = type_error).
Proof.
  unfold QuizPage.startQuiz.
  destruct (api_startQuiz apiClient _) as [response | m]; simpl.
  - destruct (QuizPage.gt_zero_throws _); simpl;
      [intros [= <-]; auto |].
    destruct (QuizPage.gt_zero string_positive _); simpl.
    + destruct (QuizPage.keysDefined _); simpl;
        [discriminate | intros [= <-]; auto].
    + destruct (api_fetchQuizQuestions apiClient _) as [payload | m]
        eqn:Hfetch; simpl.
      * destruct (QuizPage.keysDefined _); simpl;
          [discriminate | intros [= <-]; auto].
      * intros [= ->]. split; [reflexivity |]. right. left. eauto.
  - intros [= ->]. split; [reflexivity |]. by left.
Qed.

(** A failed start never touches the AnswerMap. *)
Lemma startQuiz_failure_keeps_answers
    (string_positive : string → bool) (type_error demoUserId : string)
    (apiClient : ApiClient) (st : QuizPage.QuizState) (message : string) :
  QuizPage.error (QuizPage.status
    (QuizPage.startQuiz string_positive type_error demoUserId apiClient st))
  = Some message →
  QuizPage.answers
    (QuizPage.startQuiz string_positive type_error demoUserId apiClient st)
  = QuizPage.answers st.
Proof.
  unfold QuizPage.startQuiz.
  destruct (api_startQuiz apiClient _) as [response | m]; simpl; [| done].
  destruct (QuizPage.gt_zero_throws _); simpl; [done |].
  destruct (QuizPage.gt_zero string_positive _); simpl.
  - destruct (QuizPage.keysDefined _); simpl; [discriminate | done].
  - destruct (api_fetchQuizQuestions apiClient _) as [payload | m]; simpl;
      [| done].
    destruct (QuizPage.keysDefined _); simpl; [discriminate | done].
Qed.

(** When the start call or the follow-up questions fetch is rejected, the
    message is surfaced and neither the question list nor the AnswerMap is
    touched. *)
Lemma startQuiz_failure_keeps_questions_answers
    (string_positive : string → bool) (type_error demoUserId : string)
    (apiClient : ApiClient) (st : QuizPage.QuizState) (message : string) :
  api_startQuiz apiClient
    (QuizPage.startPayload demoUserId (QuizPage.config st))
  = Rejected message
  ∨ (∃ response,
       api_startQuiz apiClient
         (QuizPage.startPayload demoUserId (QuizPage.config st))
       = Resolved response
       ∧ QuizPage.gt_zero_throws (get "length" (get "questions" response))
         = false
       ∧ QuizPage.gt_zero string_positive
           (get "length" (get "questions" response)) = false
       ∧ api_fetchQuizQuestions apiClient
           (coalesce (get "session_id" response)
              (coalesce (get "sessionId" response) (get "id" response)))
         = Rejected message) →
  QuizPage.status
    (QuizPage.startQuiz string_positive type_error demoUserId apiClient st)
  = {| QuizPage.loading := false; QuizPage.error := Some message |}
  ∧ QuizPage.questions
      (QuizPage.startQuiz string_positive type_error demoUserId apiClient st)
    = QuizPage.questions st
  ∧ QuizPage.answers
      (QuizPage.startQuiz string_positive type_error demoUserId apiClient st)
    = QuizPage.answers st.
Proof.
  unfold QuizPage.startQuiz.
  intros [-> | (response & -> & -> & -> & ->)]; done.
Qed.

(** When the start call itself is rejected the session is untouched too. *)
Lemma startQuiz_start_rejected_keeps_session
    (string_positive : string → bool) (type_error demoUserId : string)
    (apiClient : ApiClient) (st : QuizPage.QuizState) (message : string) :
  api_startQuiz apiClient
    (QuizPage.startPayload demoUserId (QuizPage.config st))
  = Rejected message →
  QuizPage.session
    (QuizPage.startQuiz string_positive type_error demoUserId apiClient st)
  = QuizPage.session st.
Proof. unfold QuizPage.startQuiz. by intros ->. Qed.

(** C1, at the failing run. The page shows session [s1] with its two
    questions and one answer; a new start is accepted by the backend as
    session [s2] and the follow-up questions fetch is then rejected. The
    error is surfaced and the questions and answers are those of before, but
    the stored session is the new one: [setSession] ran before the fetch. *)
Theorem startQuiz_fetch_failure_replaces_session :
  let before := Samples.activeState in
  let after := QuizPage.startQuiz Samples.no_positive_string
                 Samples.type_error_text "demo-user" Samples.quizBackend2
                 before in
  QuizPage.status after
  = {| QuizPage.loading := false;
       QuizPage.error := Some "Request failed with status 500" |}
  ∧ QuizPage.questions after = QuizPage.questions before
  ∧ QuizPage.answers after = QuizPage.answers before
  ∧ get "sessionId" (QuizPage.session before) = VStr "s1"
  ∧ QuizPage.session after
    = VObj [("session_id", VStr "s2"); ("sessionId", VStr "s2");
            ("focus", VStr "Vocabulary")]
  ∧ QuizPage.session after ≠ QuizPage.session before.
Proof.
  intros before after.
  assert (Hs : QuizPage.session after
               = VObj [("session_id", VStr "s2"); ("sessionId", VStr "s2");
                       ("focus", VStr "Vocabulary")])
    by (vm_compute; reflexivity).
  repeat split; try exact Hs; try (vm_compute; reflexivity).
  rewrite Hs. vm_compute. discriminate.
Qed.

(** ** Dashboard refresh *)

(** C4. In every dashboard refresh in which the summary fetch or the
    lesson-plan fetch rejects, one failure message is reported (that of a
    rejected fetch), [dashboardData] and [lessonPlan] keep their previous
    values, and the single loading flag is lowered again. *)
Theorem fetchAllData_failure
    (second_first : bool) (apiClient : ApiClient) (token : value)
    (st : DashboardPage.State) :
  truthy token = true →
  (∃ m, api_getDashboard apiClient token = Rejected m)
  ∨ (∃ m, api_getLessonPlan apiClient token = Rejected m) →
  let st' := DashboardPage.fetchAllData second_first apiClient token st in
  DashboardPage.dashboardData st' = DashboardPage.dashboardData st
  ∧ DashboardPage.lessonPlan st' = DashboardPage.lessonPlan st
  ∧ DashboardPage.loading st' = false
  ∧ ∃ m, DashboardPage.error st' = Some m
         ∧ (api_getDashboard apiClient token = Rejected m
            ∨ api_getLessonPlan apiClient token = Rejected m).
Proof.
  intros Htoken Hrej st'. subst st'.
  unfold DashboardPage.fetchAllData. rewrite Htoken. simpl.
  destruct (api_getDashboard apiClient token) as [d | md] eqn:Hd,
           (api_getLessonPlan apiClient token) as [l | ml] eqn:Hl; simpl.
  - destruct Hrej as [[m Hm] | [m Hm]]; discriminate.
  - repeat split. exists ml. auto.
  - repeat split. exists md. auto.
  - repeat split. destruct second_first; [exists ml | exists md]; auto.
Qed.

Lemma fetchAllData_failure_witness :
  let st' := DashboardPage.fetchAllData false Samples.dashboardBackend
               (VStr "token-1") Samples.shownDashboard in
  DashboardPage.dashboardData st' = VObj [("currentScore", VNum 88)]
  ∧ DashboardPage.lessonPlan st' = [VObj [("title", VStr "Prefixes")]]
  ∧ DashboardPage.loading st' = false
  ∧ ∃ m, DashboardPage.error st' = Some m
         ∧ (api_getDashboard Samples.dashboardBackend (VStr "token-1")
            = Rejected m
            ∨ api_getLessonPlan Samples.dashboardBackend (VStr "token-1")
              = Rejected m).
Proof.
  apply (fetchAllData_failure false Samples.dashboardBackend (VStr "token-1")
           Samples.shownDashboard).
  - reflexivity.
  - right. exists "Request failed with status 500". reflexivity.
Defined.

(** ** Payload normaliser on payloads that are not lists *)

Lemma filter_typeof_object_structured (l : list value) :
  VNull ∉ l →
  filter (λ entry, typeof_object entry = true) l
  = filter (λ entry, structured entry = true) l.
Proof.
  induction l as [| x l IH]; intros Hnull; [reflexivity |].
  apply not_elem_of_cons in Hnull as [Hx Hl].
  rewrite !filter_cons, (IH Hl).
  destruct x; simpl; try reflexivity. by destruct Hx.
Qed.

Lemma truthy_and_isArray (v : value) : truthy v && isArray v = isArray v.
Proof. by destruct v as [| | [] | | | |]; simpl; rewrite ?andb_false_r. Qed.

Lemma get_alias_primitive (k : string) (v : value) :
  k ≠ "length" → structured v = false → get k v = VUndefined.
Proof.
  intros Hk Hv. destruct v; try reflexivity; try discriminate. simpl.
  destruct (String.eqb_spec k "length"); [contradiction | reflexivity].
Qed.

(** The claim C2 as it is worded fails: a payload whose only list-valued
    alias is [lessons] is normalised to the empty list by
    [normalizeQuestions], which consults [questions] alone and has no
    own-values fallback. *)
Lemma normalizers_same_policy_counterexample :
  ¬ (∀ p : value, nullish p = false → isArray p = false →
       QuizPage.normalizeQuestions p = alias_policy_spec p
       ∧ DashboardPage.normalizeLessons p = alias_policy_spec p).
Proof.
  intros Hclaim.
  destruct (Hclaim (VObj [("lessons", VArr [VObj [("title", VStr "Roots")]])])
              eq_refl eq_refl) as [Hq _].
  vm_compute in Hq. discriminate Hq.
Qed.

(** C2, amended. On a non-null payload that is not an array the two
    normalisers differ. [normalizeQuestions] returns the list under
    [questions] when that field is list-valued and the empty list otherwise.
    [normalizeLessons] returns the first list-valued field among [lessons],
    [plan], [sections], in that order; otherwise, when no own field holds
    null, exactly the own field values that are not primitives, in the
    object's key order. *)
Theorem normalizers_non_array (p : value) :
  nullish p = false →
  isArray p = false →
  QuizPage.normalizeQuestions p
  = (if isArray (get "questions" p) then items_of (get "questions" p) else [])
  ∧ (if isArray (get "lessons" p)
     then DashboardPage.normalizeLessons p = items_of (get "lessons" p)
     else if isArray (get "plan" p)
     then DashboardPage.normalizeLessons p = items_of (get "plan" p)
     else if isArray (get "sections" p)
     then DashboardPage.normalizeLessons p = items_of (get "sections" p)
     else VNull ∉ object_values p →
          DashboardPage.normalizeLessons p
          = filter (λ entry, structured entry = true) (object_values p)).
Proof.
  intros Hnn Harr.
  unfold QuizPage.normalizeQuestions, DashboardPage.normalizeLessons.
  rewrite Harr, !truthy_and_isArray.
  destruct (truthy p) eqn:Htruthy; simpl.
  - split; [reflexivity |].
    destruct (isArray (get "lessons" p)); [reflexivity |].
    destruct (isArray (get "plan" p)); [reflexivity |].
    destruct (isArray (get "sections" p)); [reflexivity |].
    intros Hnull. by apply filter_typeof_object_structured.
  - assert (Hprim : structured p = false) by (by destruct p).
    rewrite !(get_alias_primitive _ p) by done. simpl.
    split; [reflexivity |]. intros _.
    destruct p as [| | b | n | s | |]; try done.
    simpl in Htruthy. apply negb_false_iff, String.eqb_eq in Htruthy.
    by subst s.
Qed.

Lemma normalizers_non_array_witness :
  (QuizPage.normalizeQuestions Samples.lessonsByDay = []
   ∧ DashboardPage.normalizeLessons Samples.lessonsByDay
     = [VObj [("title", VStr "Prefixes")]; VObj [("title", VStr "Roots")]])
  ∧ (QuizPage.normalizeQuestions MoreSamples.lessonsWithNull = []
     ∧ DashboardPage.normalizeLessons MoreSamples.lessonsWithNull
       = [VObj [("title", VStr "Roots")]]).
Proof.
  split.
  - destruct (normalizers_non_array Samples.lessonsByDay eq_refl eq_refl)
      as [Hquestions Hlessons].
    split; [exact Hquestions |]. apply Hlessons.
    vm_compute. intros H.
    repeat (inversion H as [| ? ? ? H']; clear H; rename H' into H).
  - exact (normalizers_non_array MoreSamples.lessonsWithNull eq_refl eq_refl).
Defined.

(** ** Identity store *)

(** What [persistState] leaves in the durable slot: nothing, or the
    serialised identity of a truthy token. *)
Lemma persistState_stored
    (JSON_stringify : value → string) (nextState : value)
    (st : AuthContext.Store) :
  AuthContext.stored (AuthContext.persistState true JSON_stringify nextState st)
  = if truthy (get "token" nextState) then Some (JSON_stringify nextState)
    else None.
Proof.
  unfold AuthContext.persistState. simpl.
  by destruct (truthy (get "token" nextState)).
Qed.

(** What [persistState] leaves in memory: the next state as it was given. *)
Lemma persistState_memory
    (has_window : bool) (JSON_stringify : value → string) (nextState : value)
    (st : AuthContext.Store) :
  AuthContext.authState
    (AuthContext.persistState has_window JSON_stringify nextState st)
  = nextState.
Proof.
  unfold AuthContext.persistState.
  destruct has_window; simpl; [| reflexivity].
  by destruct (truthy (get "token" nextState)).
Qed.

(** Logging out empties both memory and the durable slot. *)
Lemma logout_clears
    (JSON_stringify : value → string) (apiClient : ApiClient)
    (st : AuthContext.Store) :
  let st' := AuthContext.logout true JSON_stringify apiClient st in
  AuthContext.user st' = VNull ∧ AuthContext.token st' = VNull
  ∧ AuthContext.stored st' = None.
Proof. by repeat split. Qed.

(** C3, at the failing run. From the logged-out store, where the Identity
    invariant holds, a login whose response carries a user record and no
    token leaves the durable slot empty but keeps the user record in memory
    beside a null token: the invariant is broken in memory. *)
Theorem login_without_token_keeps_user
    (JSON_parse : string → option value) (JSON_stringify : value → string) :
  let st0 := AuthContext.init true JSON_parse None in
  let st' := (AuthContext.login true JSON_stringify Samples.authBackend
                Samples.credentials st0).1 in
  identity_invariant st0
  ∧ AuthContext.token st' = VNull
  ∧ AuthContext.isAuthenticated st' = false
  ∧ AuthContext.user st' = VObj [("email", VStr "ana@example.com")]
  ∧ AuthContext.stored st' = None
  ∧ ¬ identity_invariant st'.
Proof.
  intros st0 st'. repeat split; try done.
  intros [_ Huser]. specialize (Huser eq_refl). discriminate Huser.
Qed.

(** ** HTTP wrapper *)





(** ** Worked runs *)

(** A 204 answer with an empty body resolves with [undefined], silently. *)
Example request_no_content :
  Http.request Samples.parseMessageText Samples.type_error_text
    {| Http.status := 204; Http.text := "" |}
  = {| Http.settled := Resolved VUndefined; Http.warned := false |}.
Proof. reflexivity. Qed.

(** A failure status with an unparsable body gives the generic message and
    logs the parse warning. *)
Example request_bad_gateway :
  Http.request Samples.parseMessageText Samples.type_error_text
    {| Http.status := 502; Http.text := "<html>Bad Gateway</html>" |}
  = {| Http.settled := Rejected "Request failed with status 502";
       Http.warned := true |}.
Proof. vm_compute. reflexivity. Qed.

(** The first quiz of the samples: ids [question-1] and [w7], one answered. *)
Example activeState_progress :
  QuizPage.answers Samples.activeState
  = <["question-1" := "brief"]> (<["w7" := ""]> ∅)
  ∧ QuizPage.answeredCount (QuizPage.answers Samples.activeState) = 1%nat
  ∧ QuizPage.allAnswered (QuizPage.questions Samples.activeState)
      (QuizPage.answers Samples.activeState) = false.
Proof. repeat split; vm_compute; reflexivity. Qed.

(** A null own field survives the fallback filter of [normalizeLessons]. *)
Example normalizeLessons_keeps_null :
  DashboardPage.normalizeLessons
    (VObj [("monday", VObj [("title", VStr "Prefixes")]); ("tuesday", VNull)])
  = [VObj [("title", VStr "Prefixes")]; VNull].
Proof. reflexivity. Qed.

(** * Further properties of the sources *)

(** ** Uniqueness of question ids *)

Lemma question_prefix_inj :
  Inj (=) (=) (λ n : Z, "question-" +:+ pretty n).
Proof.
  intros a b Hab.
  apply (inj (String.app "question-")) in Hab.
  by apply (inj pretty) in Hab.
Qed.

Lemma fallback_prefix_inj :
  Inj (=) (=) (λ i : nat, "q-" +:+ pretty i).
Proof.
  intros a b Hab.
  apply (inj (String.app "q-")) in Hab.
  by apply (inj pretty) in Hab.
Qed.

Lemma blankAnswers_size_NoDup (qs : list value) :
  NoDup (imap (λ index question, QuizPage.answerKey question index) qs) →
  "__proto__" ∉ imap (λ index question, QuizPage.answerKey question index) qs →
  size (QuizPage.blankAnswers qs) = length qs.
Proof.
  intros Hnodup Hproto.
  rewrite <- (size_dom (D := gset string)), blankAnswers_dom.
  rewrite difference_disjoint_L by set_solver.
  by rewrite size_list_to_set, length_imap.
Qed.

Lemma question_prefix_not_proto (ns : list Z) :
  "__proto__" ∉ (λ n : Z, "question-" +:+ pretty n) <$> ns.
Proof. intros (n & Hn & _)%list_elem_of_fmap. simpl in Hn. discriminate Hn. Qed.

Lemma fallback_prefix_not_proto (positions : list nat) :
  "__proto__" ∉ (λ i : nat, "q-" +:+ pretty i) <$> positions.
Proof. intros (i & Hi & _)%list_elem_of_fmap. simpl in Hi. discriminate Hi. Qed.

(** The keys of a question list all of whose records carry a non-zero
    [question_number]. *)
Lemma numbered_keys (qs : list value) (ns : list Z) :
  get "question_number" <$> qs = VNum <$> ns →
  0%Z ∉ ns →
  imap (λ index question, QuizPage.answerKey question index) qs
  = (λ n : Z, "question-" +:+ pretty n) <$> ns.
Proof.
  intros Hnums Hzero.
  rewrite (imap_ext _
             (const (λ q, "question-" +:+ to_string (get "question_number" q)))).
  - rewrite imap_const.
    rewrite (list_fmap_compose (get "question_number")
               (λ v, "question-" +:+ to_string v)).
    rewrite Hnums, <- list_fmap_compose. reflexivity.
  - intros i q Hq. simpl.
    assert (Hi : (get "question_number" <$> qs) !! i
                 = Some (get "question_number" q))
      by (by rewrite list_lookup_fmap, Hq).
    rewrite Hnums, list_lookup_fmap in Hi.
    destruct (ns !! i) as [n |] eqn:Hn; [| discriminate].
    injection Hi as Hi.
    unfold QuizPage.answerKey, QuizPage.to_property_key, QuizPage.getQuestionId.
    rewrite <- Hi. simpl.
    assert (n ≠ 0%Z) as Hne.
    { intros ->. apply Hzero. by eapply list_elem_of_lookup_2. }
    apply Z.eqb_neq in Hne. rewrite Hne. reflexivity.
Qed.

(** X1. Distinct non-zero sequence numbers give distinct ids: every question
    then has its own entry in the blank AnswerMap. *)
Theorem numbered_questions_unique_ids (qs : list value) (ns : list Z) :
  get "question_number" <$> qs = VNum <$> ns →
  0%Z ∉ ns →
  NoDup ns →
  NoDup (imap (λ index question,
                 QuizPage.to_property_key
                   (QuizPage.getQuestionId question index)) qs)
  ∧ size (QuizPage.blankAnswers qs) = length qs.
Proof.
  intros Hnums Hzero Hnodup.
  assert (Hkeys : NoDup (imap (λ index question,
                                 QuizPage.answerKey question index) qs)).
  { rewrite (numbered_keys qs ns Hnums Hzero).
    apply NoDup_fmap_2; [exact question_prefix_inj | exact Hnodup]. }
  split; [exact Hkeys |]. apply blankAnswers_size_NoDup; [exact Hkeys |].
  rewrite (numbered_keys qs ns Hnums Hzero). apply question_prefix_not_proto.
Qed.

(** The keys of a question list none of whose records carries a usable
    [question_number], [id] or [questionId]. *)
Lemma fallback_keys (qs : list value) :
  (∀ q, q ∈ qs →
        truthy (get "question_number" q) = false
        ∧ nullish (get "id" q) = true
        ∧ nullish (get "questionId" q) = true) →
  imap (λ index question, QuizPage.answerKey question index) qs
  = (λ i : nat, "q-" +:+ pretty i) <$> seq 0 (length qs).
Proof.
  intros Hbare. rewrite <- imap_seq_0.
  apply imap_ext. intros i q Hq.
  destruct (Hbare q) as (Hnum & Hid & Hqid);
    [by eapply list_elem_of_lookup_2 |].
  unfold QuizPage.answerKey, QuizPage.to_property_key, QuizPage.getQuestionId,
    coalesce.
  by rewrite Hnum, Hid, Hqid.
Qed.

(** X2. Questions without any id of their own get the positional ids
    [q-0], [q-1], ... in order; these are pairwise distinct, so the blank
    AnswerMap has one entry per question. *)
Theorem fallback_ids_unique (qs : list value) :
  (∀ q, q ∈ qs →
        truthy (get "question_number" q) = false
        ∧ nullish (get "id" q) = true
        ∧ nullish (get "questionId" q) = true) →
  imap (λ index question, QuizPage.getQuestionId question index) qs
  = (λ i : nat, VStr ("q-" +:+ pretty i)) <$> seq 0 (length qs)
  ∧ NoDup (imap (λ index question,
                   QuizPage.to_property_key
                     (QuizPage.getQuestionId question index)) qs)
  ∧ size (QuizPage.blankAnswers qs) = length qs.
Proof.
  intros Hbare.
  assert (Hkeys : NoDup (imap (λ index question,
                                 QuizPage.answerKey question index) qs)).
  { rewrite (fallback_keys qs Hbare).
    apply NoDup_fmap_2; [exact fallback_prefix_inj | apply NoDup_seq]. }
  split; [| split; [exact Hkeys |]].
  2: { apply blankAnswers_size_NoDup; [exact Hkeys |].
       rewrite (fallback_keys qs Hbare). apply fallback_prefix_not_proto. }
  rewrite <- imap_seq_0. apply imap_ext. intros i q Hq.
  destruct (Hbare q) as (Hnum & Hid & Hqid);
    [by eapply list_elem_of_lookup_2 |].
  unfold QuizPage.getQuestionId, coalesce. by rewrite Hnum, Hid, Hqid.
Qed.

(** ** The submission gate *)

Lemma size_list_to_set_le (l : list string) :
  (size (list_to_set l : gset string) ≤ length l)%nat.
Proof.
  induction l as [| x l IH].
  - rewrite list_to_set_nil, size_empty. done.
  - rewrite list_to_set_cons, size_union_alt, size_singleton. simpl.
    assert (Hsub : list_to_set l ∖ {[x]} ⊆ (list_to_set l : gset string))
      by set_solver.
    apply subseteq_size in Hsub. lia.
Qed.

Lemma size_list_to_set_lt (l : list string) :
  ¬ NoDup l → (size (list_to_set l : gset string) < length l)%nat.
Proof.
  induction l as [| x l IH]; intros Hdup.
  - destruct Hdup. constructor.
  - rewrite list_to_set_cons. simpl.
    destruct (decide (x ∈ l)) as [Hin | Hout].
    + rewrite subseteq_union_1_L by set_solver.
      pose proof (size_list_to_set_le l). lia.
    + assert (¬ NoDup l) as Hl by (intros Hl; apply Hdup; by constructor).
      rewrite size_union_alt, size_singleton.
      assert (Hsub : list_to_set l ∖ {[x]} ⊆ (list_to_set l : gset string))
        by set_solver.
      apply subseteq_size in Hsub. specialize (IH Hl). lia.
Qed.

Lemma answeredCount_le_size (a : gmap string string) :
  (QuizPage.answeredCount a ≤ size a)%nat.
Proof. rewrite answeredCount_size. apply map_size_filter. Qed.

Lemma answeredCount_all_blank (a : gmap string string) :
  (∀ k v, a !! k = Some v → v = "") → QuizPage.answeredCount a = 0.
Proof.
  intros Hblank. rewrite answeredCount_size.
  rewrite (map_empty_filter_2 (λ kv : string * string, kv.2 ≠ "") a);
    [apply map_size_empty |].
  intros k v Hk Hne. simpl in Hne. apply Hne. by eapply Hblank.
Qed.

Lemma answeredCount_full (a : gmap string string) :
  QuizPage.answeredCount a = size a ↔ ∀ k v, a !! k = Some v → v ≠ "".
Proof.
  rewrite answeredCount_size. split.
  - intros Hsize k v Hk.
    assert (Hid : filter (λ kv : string * string, kv.2 ≠ "") a = a).
    { apply map_subseteq_size_eq; [apply map_filter_subseteq | lia]. }
    rewrite <- Hid in Hk. by apply map_lookup_filter_Some in Hk as [_ Hv].
  - intros Hall. by rewrite map_filter_id.
Qed.

(** X3. When two questions share an id, the AnswerMap has fewer keys than
    there are questions and [allAnswered] stays false whatever is answered:
    an AnswerMap whose keys are among the question ids never opens the
    submission gate. *)
Theorem duplicate_ids_block_submission
    (qs : list value) (a : gmap string string) :
  ¬ NoDup (imap (λ index question,
                   QuizPage.to_property_key
                     (QuizPage.getQuestionId question index)) qs) →
  dom a ⊆ list_to_set
            (imap (λ index question,
                     QuizPage.to_property_key
                       (QuizPage.getQuestionId question index)) qs) →
  QuizPage.allAnswered qs a = false.
Proof.
  intros Hdup Hdom.
  pose proof (size_list_to_set_lt _ Hdup) as Hlt.
  rewrite length_imap in Hlt.
  pose proof (subseteq_size _ _ Hdom) as Hle.
  rewrite size_dom in Hle.
  pose proof (answeredCount_le_size a).
  unfold QuizPage.allAnswered. apply andb_false_iff. right.
  apply Nat.eqb_neq. lia.
Qed.

(** X4. With pairwise distinct ids and an AnswerMap whose keys are exactly
    the question ids, [allAnswered] holds exactly when there is at least one
    question and every question has a non-empty answer under its id. *)
Theorem allAnswered_every_question
    (qs : list value) (a : gmap string string) :
  NoDup (imap (λ index question,
                 QuizPage.to_property_key
                   (QuizPage.getQuestionId question index)) qs) →
  dom a = list_to_set
            (imap (λ index question,
                     QuizPage.to_property_key
                       (QuizPage.getQuestionId question index)) qs) →
  QuizPage.allAnswered qs a = true
  ↔ qs ≠ []
    ∧ ∀ index question, qs !! index = Some question →
        ∃ v, a !! QuizPage.to_property_key
                    (QuizPage.getQuestionId question index) = Some v
             ∧ v ≠ "".
Proof.
  intros Hnodup Hdom.
  assert (Hsize : size a = length qs).
  { rewrite <- (size_dom (D := gset string)), Hdom.
    by rewrite size_list_to_set, length_imap. }
  unfold QuizPage.allAnswered.
  rewrite andb_true_iff, Nat.ltb_lt, Nat.eqb_eq, <- Hsize, answeredCount_full.
  split.
  - intros [Hpos Hall]. split.
    + intros ->. rewrite Hsize in Hpos. simpl in Hpos. lia.
    + intros index question Hq.
      assert (Hin : QuizPage.to_property_key
                      (QuizPage.getQuestionId question index) ∈ dom a).
      { rewrite Hdom, elem_of_list_to_set.
        by apply (elem_of_lookup_imap_2
                    (λ i q, QuizPage.to_property_key
                              (QuizPage.getQuestionId q i))). }
      apply elem_of_dom in Hin as [v Hv]. exists v. split; [exact Hv |].
      by eapply Hall.
  - intros [Hne Hall]. split.
    + rewrite Hsize. destruct qs; [done | simpl; lia].
    + intros k v Hk.
      assert (Hin : k ∈ dom a) by (apply elem_of_dom; eauto).
      rewrite Hdom, elem_of_list_to_set in Hin.
      apply elem_of_lookup_imap_1 in Hin as (index & question & -> & Hq).
      destruct (Hall index question Hq) as (v' & Hv' & Hnonempty).
      rewrite Hk in Hv'. by injection Hv' as ->.
Qed.

(** X5. A quiz that has just been started is unanswered: the answered count
    is 0 and the submission gate is closed. *)
Theorem fresh_quiz_unanswered
    (string_positive : string → bool) (type_error demoUserId : string)
    (apiClient : ApiClient) (st : QuizPage.QuizState) :
  let st' :=
    QuizPage.startQuiz string_positive type_error demoUserId apiClient st in
  QuizPage.error (QuizPage.status st') = None →
  QuizPage.answeredCount (QuizPage.answers st') = 0
  ∧ QuizPage.allAnswered (QuizPage.questions st') (QuizPage.answers st')
    = false.
Proof.
  intros st' Hok. subst st'.
  destruct (startQuiz_success_answers _ _ _ _ _ Hok) as [Hanswers _].
  set (st' := QuizPage.startQuiz _ _ _ _ _) in *.
  assert (Hblank : ∀ k v, QuizPage.answers st' !! k = Some v → v = "").
  { rewrite Hanswers. apply blankAnswers_lookup. }
  assert (Hcount : QuizPage.answeredCount (QuizPage.answers st') = 0)
    by (by apply answeredCount_all_blank).
  split; [exact Hcount |].
  unfold QuizPage.allAnswered. rewrite Hcount.
  by destruct (QuizPage.questions st').
Qed.

(** ** Starting a quiz *)

Lemma assoc_set_same (k : string) (v : value) (props : list (string * value)) :
  assoc k (assoc_set k v props) = v.
Proof.
  induction props as [| [k' v'] props IH]; simpl.
  - by rewrite String.eqb_refl.
  - destruct (String.eqb_spec k k') as [-> | Hne]; simpl.
    + by rewrite String.eqb_refl.
    + destruct (String.eqb_spec k k'); [contradiction | exact IH].
Qed.

Lemma assoc_set_other (k k' : string) (v : value)
    (props : list (string * value)) :
  k ≠ k' → assoc k (assoc_set k' v props) = assoc k props.
Proof.
  intros Hne. induction props as [| [k0 v0] props IH]; simpl.
  - by destruct (String.eqb_spec k k').
  - destruct (String.eqb_spec k' k0) as [-> | Hne0]; simpl.
    + by destruct (String.eqb_spec k k0).
    + destruct (String.eqb_spec k k0); [reflexivity | exact IH].
Qed.

(** X6. When the start response embeds a non-empty question list, that list
    becomes the question list and the follow-up questions endpoint plays no
    part: any backend giving the same start response leads to the same page
    state. The start then succeeds with the blank AnswerMap when every
    question id converts to a property key; otherwise the TypeError's message
    ends up in [status.error] and the AnswerMap is left as it was. *)
Theorem startQuiz_embedded_questions
    (string_positive : string → bool) (type_error demoUserId : string)
    (apiClient : ApiClient) (st : QuizPage.QuizState)
    (response question : value) (rest : list value) :
  api_startQuiz apiClient
    (QuizPage.startPayload demoUserId (QuizPage.config st))
  = Resolved response →
  get "questions" response = VArr (question :: rest) →
  let st' :=
    QuizPage.startQuiz string_positive type_error demoUserId apiClient st in
  QuizPage.questions st' = question :: rest
  ∧ QuizPage.status st'
    = {| QuizPage.loading := false;
         QuizPage.error :=
           if QuizPage.keysDefined (question :: rest) then None
           else Some type_error |}
  ∧ QuizPage.answers st'
    = (if QuizPage.keysDefined (question :: rest)
       then QuizPage.blankAnswers (question :: rest)
       else QuizPage.answers st)
  ∧ ∀ other : ApiClient,
      api_startQuiz other
        (QuizPage.startPayload demoUserId (QuizPage.config st))
      = Resolved response →
      QuizPage.startQuiz string_positive type_error demoUserId other st = st'.
Proof.
  intros Hstart Hquestions st'. subst st'.
  assert (Htruthy : truthy response = true).
  { destruct response; simpl in Hquestions; try discriminate; reflexivity. }
  assert (Hnorm : QuizPage.normalizeQuestions response = question :: rest).
  { unfold QuizPage.normalizeQuestions. by rewrite Htruthy, Hquestions. }
  unfold QuizPage.startQuiz. rewrite Hstart, Hquestions. simpl.
  rewrite Hnorm.
  split; [by destruct (QuizPage.keysDefined _) |].
  split; [by destruct (QuizPage.keysDefined _) |].
  split; [by destruct (QuizPage.keysDefined _) |].
  intros other ->. by rewrite Hquestions; simpl; rewrite Hnorm.
Qed.

Lemma startQuiz_resolved_session
    (string_positive : string → bool) (type_error demoUserId : string)
    (apiClient : ApiClient) (st : QuizPage.QuizState) (response : value) :
  api_startQuiz apiClient
    (QuizPage.startPayload demoUserId (QuizPage.config st))
  = Resolved response →
  QuizPage.session
    (QuizPage.startQuiz string_positive type_error demoUserId apiClient st)
  = QuizPage.sessionOf response
      (coalesce (get "session_id" response)
         (coalesce (get "sessionId" response) (get "id" response)))
      (QuizPage.config st).
Proof.
  intros Hstart. unfold QuizPage.startQuiz. rewrite Hstart.
  destruct (QuizPage.gt_zero_throws _); simpl; [reflexivity |].
  destruct (QuizPage.gt_zero _ _); simpl.
  - by destruct (QuizPage.keysDefined _).
  - destruct (api_fetchQuizQuestions _ _); simpl; [| reflexivity].
    by destruct (QuizPage.keysDefined _).
Qed.

(** X7. Once the start call has resolved, the stored session carries under
    [sessionId] the first non-null of the response's [session_id],
    [sessionId] and [id], and under [focus] the configured focus; this holds
    whether or not the questions are obtained afterwards. *)
Theorem startQuiz_session_fields
    (string_positive : string → bool) (type_error demoUserId : string)
    (apiClient : ApiClient) (st : QuizPage.QuizState) (response : value) :
  api_startQuiz apiClient
    (QuizPage.startPayload demoUserId (QuizPage.config st))
  = Resolved response →
  let st' :=
    QuizPage.startQuiz string_positive type_error demoUserId apiClient st in
  get "sessionId" (QuizPage.session st')
  = coalesce (get "session_id" response)
      (coalesce (get "sessionId" response) (get "id" response))
  ∧ get "focus" (QuizPage.session st')
    = VStr (QuizPage.focus (QuizPage.config st)).
Proof.
  intros Hstart st'. subst st'.
  rewrite (startQuiz_resolved_session _ _ _ _ _ _ Hstart).
  unfold QuizPage.sessionOf. simpl. split.
  - rewrite assoc_set_other by discriminate. apply assoc_set_same.
  - apply assoc_set_same.
Qed.

(** X8. Every run of [startQuiz], failed or not, ends with the loading flag
    lowered, the previous submission discarded and the configuration
    untouched. *)
Theorem startQuiz_discards_submission
    (string_positive : string → bool) (type_error demoUserId : string)
    (apiClient : ApiClient) (st : QuizPage.QuizState) :
  let st' :=
    QuizPage.startQuiz string_positive type_error demoUserId apiClient st in
  QuizPage.submission st' = VNull
  ∧ QuizPage.loading (QuizPage.status st') = false
  ∧ QuizPage.config st' = QuizPage.config st.
Proof.
  intros st'. subst st'. unfold QuizPage.startQuiz.
  destruct (api_startQuiz apiClient _) as [response | m]; simpl; [| done].
  destruct (QuizPage.gt_zero_throws _); simpl; [done |].
  destruct (QuizPage.gt_zero _ _); simpl.
  - by destruct (QuizPage.keysDefined _).
  - destruct (api_fetchQuizQuestions _ _); simpl; [| done].
    by destruct (QuizPage.keysDefined _).
Qed.

(** ** Answering and submitting *)

(** X9. The id derived when the quiz was started is the [session_id] that a
    following submit sends, provided that id is truthy. *)
Theorem submit_sends_start_id
    (string_positive : string → bool) (type_error demoUserId : string)
    (apiClient : ApiClient) (st : QuizPage.QuizState) (response : value) :
  api_startQuiz apiClient
    (QuizPage.startPayload demoUserId (QuizPage.config st))
  = Resolved response →
  truthy (coalesce (get "session_id" response)
            (coalesce (get "sessionId" response) (get "id" response)))
  = true →
  get "session_id"
    (QuizPage.submitPayload demoUserId
       (QuizPage.startQuiz string_positive type_error demoUserId apiClient
          st))
  = coalesce (get "session_id" response)
      (coalesce (get "sessionId" response) (get "id" response)).
Proof.
  intros Hstart Htruthy.
  unfold QuizPage.submitPayload. simpl.
  rewrite (startQuiz_resolved_session _ _ _ _ _ _ Hstart).
  unfold QuizPage.sessionOf. simpl.
  rewrite assoc_set_other by discriminate. rewrite assoc_set_same.
  unfold js_or. by rewrite Htruthy.
Qed.


(** X11. Recording an answer under the id of the question at [index] makes
    that answer the entry at [index] of the list a submit sends; the list
    keeps one entry per question, and entries of questions with another id
    are unchanged. *)
Theorem recorded_answer_is_submitted
    (st : QuizPage.QuizState) (index : nat) (question : value)
    (choiceValue : string) :
  QuizPage.questions st !! index = Some question →
  let st' := QuizPage.handleAnswerChange
               (QuizPage.getQuestionId question index) choiceValue st in
  QuizPage.formattedAnswers (QuizPage.questions st') (QuizPage.answers st')
    !! index = Some choiceValue
  ∧ length (QuizPage.formattedAnswers (QuizPage.questions st')
              (QuizPage.answers st'))
    = length (QuizPage.questions st)
  ∧ ∀ j other,
      QuizPage.questions st !! j = Some other →
      QuizPage.to_property_key (QuizPage.getQuestionId other j)
      ≠ QuizPage.to_property_key (QuizPage.getQuestionId question index) →
      QuizPage.formattedAnswers (QuizPage.questions st') (QuizPage.answers st')
        !! j
      = QuizPage.formattedAnswers (QuizPage.questions st) (QuizPage.answers st)
          !! j.
Proof.
  intros Hq st'. subst st'. destruct st as [c s qs a sub stat].
  unfold QuizPage.handleAnswerChange, QuizPage.formattedAnswers; simpl in *.
  split; [| split].
  - by rewrite list_lookup_imap, Hq; simpl; rewrite lookup_insert_eq.
  - apply length_imap.
  - intros j other Hother Hkey.
    rewrite !list_lookup_imap, Hother; simpl.
    by rewrite lookup_insert_ne.
Qed.

(** X12. After a choice was recorded for a question, a radio of that
    question is checked exactly when its value is the recorded one. *)
Theorem chosen_radio_is_checked
    (st : QuizPage.QuizState) (questionId chosen choice : value) :
  QuizPage.checked
    (QuizPage.answers
       (QuizPage.handleAnswerChange questionId (QuizPage.choiceValue chosen)
          st))
    questionId choice = true
  ↔ QuizPage.choiceValue choice = QuizPage.choiceValue chosen.
Proof.
  destruct st as [c s qs a sub stat].
  unfold QuizPage.checked, QuizPage.handleAnswerChange; simpl.
  rewrite lookup_insert_eq, String.eqb_eq. split; congruence.
Qed.

Lemma answeredCount_replace (a : gmap string string) (k old v : string) :
  a !! k = Some old →
  (QuizPage.answeredCount (<[k:=v]> a) + (if decide (old ≠ "") then 1 else 0)
   = QuizPage.answeredCount a + (if decide (v ≠ "") then 1 else 0))%nat.
Proof.
  intros Hold.
  rewrite <- (insert_delete_id a k old Hold) at 2.
  rewrite <- (insert_delete_eq a k v).
  rewrite !answeredCount_insert by apply lookup_delete_eq. lia.
Qed.

(** X13. Progress counts answers, not clicks: answering a so far blank
    question with a non-empty value raises [answeredCount] by exactly one,
    and replacing a non-empty answer by another non-empty one leaves it
    unchanged. *)
Theorem answeredCount_progress
    (st : QuizPage.QuizState) (questionId : value) (old choiceValue : string) :
  QuizPage.answers st !! QuizPage.to_property_key questionId = Some old →
  choiceValue ≠ "" →
  QuizPage.answeredCount
    (QuizPage.answers (QuizPage.handleAnswerChange questionId choiceValue st))
  = if decide (old = "") then S (QuizPage.answeredCount (QuizPage.answers st))
    else QuizPage.answeredCount (QuizPage.answers st).
Proof.
  intros Hold Hnew. destruct st as [c s qs a sub stat]; simpl in *.
  pose proof (answeredCount_replace a _ old choiceValue Hold) as Hcount.
  destruct (decide (choiceValue ≠ "")); [| contradiction].
  destruct (decide (old = "")) as [-> | Hne].
  - destruct (decide ("" ≠ "")); [contradiction | lia].
  - destruct (decide (old ≠ "")); [lia | contradiction].
Qed.

(** X14. [getOptions] never yields a falsy value: it is the first truthy one
    of [choices], [answers], [options], [choicesList], and the empty list
    when none is. *)
Theorem getOptions_first_truthy (question : value) :
  QuizPage.getOptions question
  = default (VArr [])
      (head (filter (λ v, truthy v = true)
               [get "choices" question; get "answers" question;
                get "options" question; get "choicesList" question]))
  ∧ truthy (QuizPage.getOptions question) = true.
Proof.
  unfold QuizPage.getOptions, js_or. rewrite !filter_cons, filter_nil.
  destruct (truthy (get "choices" question)) eqn:H1;
    destruct (truthy (get "answers" question)) eqn:H2;
    destruct (truthy (get "options" question)) eqn:H3;
    destruct (truthy (get "choicesList" question)) eqn:H4;
    repeat (destruct (decide _); try congruence); simpl;
    rewrite ?H1, ?H2, ?H3, ?H4; auto.
Qed.

(** ** Dashboard *)

Lemma coalesce_not_nullish (a b : value) :
  nullish b = false → nullish (coalesce a b) = false.
Proof. unfold coalesce. by destruct (nullish a) eqn:Ha. Qed.

(** X15. Computing the dashboard figures fails, with the TypeError of the
    streak's template literal, exactly when the summary's [streakDays] is
    truthy and does not convert to a string. In every other case the four
    figures are shown under fixed labels, none of them null or undefined, and
    the streak is a text ending in [ days]. *)
Theorem stats_always_displayable (dashboardData user : value) :
  let streak :=
    get "streakDays" (js_or (get "summary" dashboardData) dashboardData) in
  match DashboardPage.stats dashboardData user with
  | Some shown =>
      (truthy streak = false ∨ converts streak = true)
      ∧ shown.*1
        = ["Current score"; "Target score"; "Words mastered";
           "Practice streak"]
      ∧ Forall (λ v, nullish v = false) shown.*2
      ∧ ∃ count : string,
          shown !! 3%nat = Some ("Practice streak", VStr (count +:+ " days"))
  | None => truthy streak = true ∧ converts streak = false
  end.
Proof.
  intros streak. subst streak. unfold DashboardPage.stats.
  destruct (truthy (get "streakDays" _)) eqn:Htruthy; simpl.
  - destruct (converts (get "streakDays" _)) eqn:Hconverts; simpl;
      [| by split].
    split; [by right |]. split; [reflexivity |]. split.
    + repeat constructor; simpl;
        repeat (apply coalesce_not_nullish); reflexivity.
    + eauto.
  - split; [by left |]. split; [reflexivity |]. split.
    + repeat constructor; simpl;
        repeat (apply coalesce_not_nullish); reflexivity.
    + by exists "0".
Qed.

(** X16. A refresh without a token changes nothing. With a token it always
    ends with the loading flag lowered; it ends without an error exactly
    when both fetches resolved, and then shows the new summary and the
    normalised lesson plan. *)
Theorem fetchAllData_outcome
    (second_first : bool) (apiClient : ApiClient) (token : value)
    (st : DashboardPage.State) :
  let st' := DashboardPage.fetchAllData second_first apiClient token st in
  if truthy token
  then DashboardPage.loading st' = false
       ∧ (DashboardPage.error st' = None
          ↔ ∃ summary lessons,
              api_getDashboard apiClient token = Resolved summary
              ∧ api_getLessonPlan apiClient token = Resolved lessons
              ∧ DashboardPage.dashboardData st' = summary
              ∧ DashboardPage.lessonPlan st'
                = DashboardPage.normalizeLessons lessons)
  else st' = st.
Proof.
  intros st'. subst st'. unfold DashboardPage.fetchAllData.
  destruct (truthy token); simpl; [| reflexivity].
  destruct (api_getDashboard apiClient token) as [d | md],
           (api_getLessonPlan apiClient token) as [l | ml]; simpl;
    (split; [reflexivity |]); split;
    try (intros (? & ? & Hd & Hl & _); discriminate Hd || discriminate Hl);
    try discriminate; try reflexivity.
  intros _. by exists d, l.
Qed.

(** ** Identity store: start-up, login, logout *)

(** X17. A missing, empty or unparsable storage slot starts the application
    logged out, with the Identity invariant in force. *)
Theorem init_falls_back_to_logged_out
    (JSON_parse : string → option value) (slot : option string) :
  slot = None ∨ slot = Some ""
  ∨ (∃ raw, slot = Some raw ∧ JSON_parse raw = None) →
  let st := AuthContext.init true JSON_parse slot in
  AuthContext.authState st = AuthContext.identity VNull VNull
  ∧ AuthContext.isAuthenticated st = false
  ∧ identity_invariant st.
Proof.
  intros Hslot st. subst st.
  assert (Hstate : AuthContext.getStoredAuth true JSON_parse slot
                   = AuthContext.identity VNull VNull).
  { unfold AuthContext.getStoredAuth. simpl.
    destruct Hslot as [-> | [-> | (raw & -> & Hparse)]]; try reflexivity.
    rewrite Hparse. by destruct (String.eqb raw ""). }
  unfold identity_invariant, AuthContext.isAuthenticated, AuthContext.token,
    AuthContext.user, AuthContext.init. simpl. rewrite Hstate. by repeat split.
Qed.

(** X18. A login answered with a truthy token survives a reload: provided
    the engine parses back the identity it serialised, starting up again
    from the slot the login wrote gives the same authenticated identity, with
    the user and token of the response. *)
Theorem login_survives_reload
    (JSON_parse : string → option value) (JSON_stringify : value → string)
    (apiClient : ApiClient) (formValues response : value)
    (st : AuthContext.Store) :
  api_login apiClient formValues = Resolved response →
  truthy (get "token" response) = true →
  JSON_stringify
    (AuthContext.identity (coalesce (get "user" response) VNull)
       (get "token" response)) ≠ "" →
  JSON_parse
    (JSON_stringify
       (AuthContext.identity (coalesce (get "user" response) VNull)
          (get "token" response)))
  = Some (AuthContext.identity (coalesce (get "user" response) VNull)
            (get "token" response)) →
  let st' :=
    (AuthContext.login true JSON_stringify apiClient formValues st).1 in
  let reloaded := AuthContext.init true JSON_parse (AuthContext.stored st') in
  AuthContext.authState reloaded = AuthContext.authState st'
  ∧ AuthContext.isAuthenticated reloaded = true
  ∧ AuthContext.token reloaded = get "token" response
  ∧ AuthContext.user reloaded = coalesce (get "user" response) VNull.
Proof.
  intros Hlogin Htoken Hnonempty Hround st' reloaded. subst reloaded st'.
  assert (Hcoalesce : coalesce (get "token" response) VNull
                      = get "token" response).
  { unfold coalesce. by destruct (get "token" response). }
  unfold AuthContext.login, AuthContext.authenticate. simpl.
  rewrite Hlogin, Hcoalesce. unfold AuthContext.persistState. simpl.
  rewrite Htoken. simpl.
  unfold AuthContext.init, AuthContext.getStoredAuth,
    AuthContext.isAuthenticated, AuthContext.token, AuthContext.user. simpl.
  apply String.eqb_neq in Hnonempty. rewrite Hnonempty, Hround. simpl.
  by rewrite Htoken.
Qed.

(** X19. Logging out always ends logged out, in memory and in storage,
    whatever the backend answers (or fails to answer) to the logout request,
    and a later start-up from that storage is logged out as well. *)
Theorem logout_always_logs_out
    (JSON_parse : string → option value) (JSON_stringify : value → string)
    (apiClient : ApiClient) (st : AuthContext.Store) :
  let st' := AuthContext.logout true JSON_stringify apiClient st in
  AuthContext.authState st' = AuthContext.identity VNull VNull
  ∧ AuthContext.stored st' = None
  ∧ AuthContext.isAuthenticated st' = false
  ∧ identity_invariant st'
  ∧ AuthContext.authState
      (AuthContext.init true JSON_parse (AuthContext.stored st'))
    = AuthContext.identity VNull VNull.
Proof. by repeat split. Qed.

(** X20. A rejected signup or login changes neither the identity in memory
    nor the storage slot; the rejection reaches the caller and the
    authenticating flag is lowered again. *)
Theorem failed_authenticate_changes_nothing
    (has_window : bool) (JSON_stringify : value → string)
    (apiClient : ApiClient) (action : string) (payload : value)
    (st : AuthContext.Store) (message : string) :
  (if String.eqb action "signup" then api_signup apiClient payload
   else api_login apiClient payload) = Rejected message →
  let run := AuthContext.authenticate has_window JSON_stringify apiClient
               action payload st in
  run.2 = Rejected message
  ∧ AuthContext.authState run.1 = AuthContext.authState st
  ∧ AuthContext.stored run.1 = AuthContext.stored st
  ∧ AuthContext.isAuthenticating run.1 = false.
Proof.
  intros Hcall run. subst run. unfold AuthContext.authenticate.
  by rewrite Hcall.
Qed.

Lemma perform_mirror
    (JSON_stringify : value → string) (st : AuthContext.Store)
    (step : ApiClient * AuthOperation) :
  storage_mirrors_memory JSON_stringify st →
  AuthContext.isAuthenticating st = false →
  storage_mirrors_memory JSON_stringify (perform true JSON_stringify st step)
  ∧ AuthContext.isAuthenticating (perform true JSON_stringify st step) = false.
Proof.
  intros Hmirror Hflag. destruct step as [apiClient [formValues | formValues |]];
    unfold perform; simpl.
  - unfold AuthContext.signup, AuthContext.authenticate. simpl.
    destruct (api_signup apiClient formValues) as [response | m]; simpl;
      [| by split].
    unfold AuthContext.persistState, storage_mirrors_memory,
      AuthContext.isAuthenticated, AuthContext.token. simpl.
    by destruct (truthy (coalesce (get "token" response) VNull)) eqn:Ht;
      simpl; rewrite Ht.
  - unfold AuthContext.login, AuthContext.authenticate. simpl.
    destruct (api_login apiClient formValues) as [response | m]; simpl;
      [| by split].
    unfold AuthContext.persistState, storage_mirrors_memory,
      AuthContext.isAuthenticated, AuthContext.token. simpl.
    by destruct (truthy (coalesce (get "token" response) VNull)) eqn:Ht;
      simpl; rewrite Ht.
  - split; [reflexivity | exact Hflag].
Qed.

Lemma perform_all_mirror
    (JSON_stringify : value → string)
    (steps : list (ApiClient * AuthOperation)) :
  ∀ st : AuthContext.Store,
    storage_mirrors_memory JSON_stringify st →
    AuthContext.isAuthenticating st = false →
    storage_mirrors_memory JSON_stringify
      (perform_all true JSON_stringify steps st)
    ∧ AuthContext.isAuthenticating (perform_all true JSON_stringify steps st)
      = false.
Proof.
  induction steps as [| step steps IH]; intros st Hmirror Hflag; simpl.
  - by split.
  - destruct (perform_mirror JSON_stringify st step Hmirror Hflag) as [Hm Hf].
    by apply IH.
Qed.

(** X21. Starting logged out, after any sequence of signups, logins and
    logouts, however the backend answered each of them, durable storage
    mirrors memory: the slot holds the serialised in-memory identity when the
    session is authenticated and is empty otherwise. Hence a protected route
    shows its page exactly when an identity is stored, and redirects to the
    sign-in page otherwise. *)
Theorem storage_mirrors_memory_always
    (JSON_parse : string → option value) (JSON_stringify : value → string)
    (steps : list (ApiClient * AuthOperation)) :
  let st := perform_all true JSON_stringify steps
              (AuthContext.init true JSON_parse None) in
  storage_mirrors_memory JSON_stringify st
  ∧ (is_Some (AuthContext.stored st) ↔ AuthContext.isAuthenticated st = true)
  ∧ App.ProtectedRoute st
    = match AuthContext.stored st with
      | Some _ => App.Children
      | None => App.RedirectToAuth
      end.
Proof.
  intros st. subst st.
  destruct (perform_all_mirror JSON_stringify steps
              (AuthContext.init true JSON_parse None))
    as [Hmirror Hflag]; [reflexivity | reflexivity |].
  set (st := perform_all _ _ _ _) in *.
  split; [exact Hmirror |].
  unfold App.ProtectedRoute. rewrite Hflag.
  unfold storage_mirrors_memory in Hmirror.
  destruct (AuthContext.isAuthenticated st); rewrite Hmirror; simpl.
  - split; [split; eauto | reflexivity].
  - split; [| reflexivity]. split; [by intros [? ?] | discriminate].
Qed.

(** ** URLs *)

Lemma strip_trailing_slash_app (base : string) :
  Http.strip_trailing_slash (base +:+ "/") = base.
Proof.
  induction base as [| c rest IH]; [reflexivity |].
  change (String c rest +:+ "/") with (String c (rest +:+ "/")).
  cbn [Http.strip_trailing_slash].
  destruct (rest +:+ "/") as [| c' tail] eqn:Happ.
  - destruct rest; discriminate.
  - by rewrite IH.
Qed.

(** X22. The URL of an endpoint does not depend on whether the configured
    base ends in a slash nor on whether the path starts with one: for a
    non-empty base without trailing slash and a path without leading slash,
    all four spellings give [base/path]. *)
Theorem buildUrl_slash_insensitive (base path : string) :
  base ≠ "" →
  Http.strip_trailing_slash base = base →
  Http.startsWith_slash path = false →
  Http.buildUrl (Some base) path = base +:+ "/" +:+ path
  ∧ Http.buildUrl (Some base) ("/" +:+ path) = base +:+ "/" +:+ path
  ∧ Http.buildUrl (Some (base +:+ "/")) path = base +:+ "/" +:+ path
  ∧ Http.buildUrl (Some (base +:+ "/")) ("/" +:+ path)
    = base +:+ "/" +:+ path.
Proof.
  intros Hbase Hstrip Hpath.
  assert (Hslash : String.eqb (base +:+ "/") "" = false)
    by (apply String.eqb_neq; destruct base; discriminate).
  apply String.eqb_neq in Hbase.
  unfold Http.buildUrl, Http.API_BASE_URL.
  rewrite Hbase, Hslash, Hpath, Hstrip, strip_trailing_slash_app.
  by repeat split.
Qed.

(** ** Worked instances of the properties above *)

Lemma numbered_questions_unique_ids_witness :
  NoDup (imap (λ index question,
                 QuizPage.to_property_key
                   (QuizPage.getQuestionId question index))
              MoreSamples.numberedQuestions)
  ∧ size (QuizPage.blankAnswers MoreSamples.numberedQuestions) = 2.
Proof.
  apply (numbered_questions_unique_ids MoreSamples.numberedQuestions
           [1%Z; 2%Z]).
  - reflexivity.
  - compute_done.
  - compute_done.
Defined.

Lemma fallback_ids_unique_witness :
  imap (λ index question, QuizPage.getQuestionId question index)
       MoreSamples.bareQuestions
  = (λ i : nat, VStr ("q-" +:+ pretty i)) <$> seq 0 2
  ∧ NoDup (imap (λ index question,
                   QuizPage.to_property_key
                     (QuizPage.getQuestionId question index))
                MoreSamples.bareQuestions)
  ∧ size (QuizPage.blankAnswers MoreSamples.bareQuestions) = 2.
Proof.
  apply (fallback_ids_unique MoreSamples.bareQuestions).
  intros q Hq.
  repeat (apply elem_of_cons in Hq as [-> | Hq]; [by repeat split |]).
  by apply elem_of_nil in Hq.
Defined.

Lemma duplicate_ids_block_submission_witness :
  QuizPage.allAnswered MoreSamples.twinQuestions
    (QuizPage.handleAnswerChange (VStr "question-1") "brief"
       (QuizPage.setAnswers
          (QuizPage.blankAnswers MoreSamples.twinQuestions)
          QuizPage.initialQuizState)).(QuizPage.answers)
  = false.
Proof.
  apply duplicate_ids_block_submission.
  - compute_done.
  - compute_done.
Defined.

Lemma allAnswered_every_question_witness :
  QuizPage.allAnswered MoreSamples.numberedQuestions MoreSamples.bothAnswered
  = true
  ↔ MoreSamples.numberedQuestions ≠ []
    ∧ ∀ index question,
        MoreSamples.numberedQuestions !! index = Some question →
        ∃ v, MoreSamples.bothAnswered
               !! QuizPage.to_property_key
                    (QuizPage.getQuestionId question index) = Some v
             ∧ v ≠ "".
Proof.
  apply (allAnswered_every_question MoreSamples.numberedQuestions
           MoreSamples.bothAnswered).
  - compute_done.
  - compute_done.
Defined.

Lemma fresh_quiz_unanswered_witness :
  let st' := QuizPage.startQuiz Samples.no_positive_string
               Samples.type_error_text "demo-user"
               Samples.quizBackend1 QuizPage.initialQuizState in
  QuizPage.answeredCount (QuizPage.answers st') = 0
  ∧ QuizPage.allAnswered (QuizPage.questions st') (QuizPage.answers st')
    = false.
Proof.
  apply (fresh_quiz_unanswered Samples.no_positive_string
           Samples.type_error_text "demo-user"
           Samples.quizBackend1 QuizPage.initialQuizState).
  vm_compute. reflexivity.
Defined.

Lemma startQuiz_embedded_questions_witness :
  (let st' := QuizPage.startQuiz Samples.no_positive_string
                Samples.type_error_text "demo-user"
                Samples.quizBackend1 QuizPage.initialQuizState in
   QuizPage.questions st'
   = [VObj [("question_number", VNum 1); ("prompt", VStr "terse")];
      VObj [("id", VStr "w7"); ("prompt", VStr "lucid")]]
   ∧ QuizPage.status st'
     = {| QuizPage.loading := false; QuizPage.error := None |})
  ∧ (let st' := QuizPage.startQuiz Samples.no_positive_string
                  Samples.type_error_text "demo-user"
                  MoreSamples.quizBackendOddId QuizPage.initialQuizState in
     QuizPage.questions st'
     = [VObj [("id", VObj [("toString", VNull)]); ("prompt", VStr "terse")]]
     ∧ QuizPage.status st'
       = {| QuizPage.loading := false;
            QuizPage.error := Some Samples.type_error_text |}).
Proof.
  split.
  - destruct (startQuiz_embedded_questions Samples.no_positive_string
                Samples.type_error_text "demo-user" Samples.quizBackend1
                QuizPage.initialQuizState Samples.startResponse1
                (VObj [("question_number", VNum 1); ("prompt", VStr "terse")])
                [VObj [("id", VStr "w7"); ("prompt", VStr "lucid")]]
                eq_refl eq_refl) as (Hquestions & Hstatus & _).
    split; [exact Hquestions | exact Hstatus].
  - destruct (startQuiz_embedded_questions Samples.no_positive_string
                Samples.type_error_text "demo-user"
                MoreSamples.quizBackendOddId QuizPage.initialQuizState
                MoreSamples.startResponseOddId
                (VObj [("id", VObj [("toString", VNull)]);
                       ("prompt", VStr "terse")])
                [] eq_refl eq_refl) as (Hquestions & Hstatus & _).
    split; [exact Hquestions | exact Hstatus].
Defined.

Lemma startQuiz_session_fields_witness :
  let st' := QuizPage.startQuiz Samples.no_positive_string
               Samples.type_error_text "demo-user"
               Samples.quizBackend2 QuizPage.initialQuizState in
  get "sessionId" (QuizPage.session st') = VStr "s2"
  ∧ get "focus" (QuizPage.session st') = VStr "Vocabulary".
Proof.
  apply (startQuiz_session_fields Samples.no_positive_string Samples.type_error_text
           "demo-user"
           Samples.quizBackend2 QuizPage.initialQuizState
           Samples.startResponse2).
  reflexivity.
Defined.

Lemma submit_sends_start_id_witness :
  get "session_id"
    (QuizPage.submitPayload "demo-user"
       (QuizPage.startQuiz Samples.no_positive_string
               Samples.type_error_text "demo-user"
          Samples.quizBackend1 QuizPage.initialQuizState))
  = VStr "s1".
Proof.
  apply (submit_sends_start_id Samples.no_positive_string Samples.type_error_text
           "demo-user"
           Samples.quizBackend1 QuizPage.initialQuizState
           Samples.startResponse1); reflexivity.
Defined.

Lemma recorded_answer_is_submitted_witness :
  let st' := QuizPage.handleAnswerChange (VStr "w7") "clear"
               Samples.activeState in
  QuizPage.formattedAnswers (QuizPage.questions st') (QuizPage.answers st')
    !! 1%nat = Some "clear"
  ∧ length (QuizPage.formattedAnswers (QuizPage.questions st')
              (QuizPage.answers st')) = 2.
Proof.
  destruct (recorded_answer_is_submitted Samples.activeState 1
              (VObj [("id", VStr "w7"); ("prompt", VStr "lucid")]) "clear")
    as (Hentry & Hlength & _); [reflexivity |].
  split; [exact Hentry | exact Hlength].
Defined.

Lemma answeredCount_progress_witness :
  QuizPage.answeredCount
    (QuizPage.answers
       (QuizPage.handleAnswerChange (VStr "w7") "clear" Samples.activeState))
  = S (QuizPage.answeredCount (QuizPage.answers Samples.activeState)).
Proof.
  apply (answeredCount_progress Samples.activeState (VStr "w7") "" "clear").
  - vm_compute. reflexivity.
  - discriminate.
Defined.

Lemma init_falls_back_to_logged_out_witness :
  let st := AuthContext.init true Samples.parseMessageText
              (Some "{not json") in
  AuthContext.authState st = AuthContext.identity VNull VNull
  ∧ AuthContext.isAuthenticated st = false
  ∧ identity_invariant st.
Proof.
  apply (init_falls_back_to_logged_out Samples.parseMessageText
           (Some "{not json")).
  right. right. exists "{not json". split; reflexivity.
Defined.

Lemma login_survives_reload_witness :
  let st' :=
    (AuthContext.login true MoreSamples.stringifyIdentity
       MoreSamples.tokenBackend Samples.credentials
       (AuthContext.init true MoreSamples.parseIdentity None)).1 in
  let reloaded :=
    AuthContext.init true MoreSamples.parseIdentity (AuthContext.stored st') in
  AuthContext.authState reloaded = AuthContext.authState st'
  ∧ AuthContext.isAuthenticated reloaded = true
  ∧ AuthContext.token reloaded = VStr "t-1"
  ∧ AuthContext.user reloaded = VObj [("email", VStr "ana@example.com")].
Proof.
  apply (login_survives_reload MoreSamples.parseIdentity
           MoreSamples.stringifyIdentity MoreSamples.tokenBackend
           Samples.credentials MoreSamples.loginResponseToken
           (AuthContext.init true MoreSamples.parseIdentity None)).
  - reflexivity.
  - reflexivity.
  - vm_compute. discriminate.
  - vm_compute. reflexivity.
Defined.

Lemma failed_authenticate_changes_nothing_witness :
  let st := AuthContext.init true Samples.parseMessageText None in
  let run := AuthContext.authenticate true MoreSamples.stringifyIdentity
               Samples.quizBackend1 "login" Samples.credentials st in
  run.2 = Rejected "Failed to fetch"
  ∧ AuthContext.authState run.1 = AuthContext.authState st
  ∧ AuthContext.stored run.1 = AuthContext.stored st
  ∧ AuthContext.isAuthenticating run.1 = false.
Proof.
  apply (failed_authenticate_changes_nothing true
           MoreSamples.stringifyIdentity Samples.quizBackend1 "login"
           Samples.credentials
           (AuthContext.init true Samples.parseMessageText None)
           "Failed to fetch").
  reflexivity.
Defined.

Lemma buildUrl_slash_insensitive_witness :
  Http.buildUrl (Some "http://localhost:8000") "api/login"
  = "http://localhost:8000/api/login"
  ∧ Http.buildUrl (Some "http://localhost:8000") "/api/login"
    = "http://localhost:8000/api/login"
  ∧ Http.buildUrl (Some "http://localhost:8000/") "api/login"
    = "http://localhost:8000/api/login"
  ∧ Http.buildUrl (Some "http://localhost:8000/") "/api/login"
    = "http://localhost:8000/api/login".
Proof.
  apply (buildUrl_slash_insensitive "http://localhost:8000" "api/login").
  - discriminate.
  - reflexivity.
  - reflexivity.
Defined.

(** ** The sign-in form *)

Lemma assoc_set_keys (k : string) (v : value) (props : list (string * value)) :
  k ∈ props.*1 → (assoc_set k v props).*1 = props.*1.
Proof.
  induction props as [| [k' v'] props IH]; simpl; intros Hin.
  - by apply elem_of_nil in Hin.
  - destruct (String.eqb_spec k k') as [-> | Hne]; simpl; [reflexivity |].
    f_equal. apply IH. apply elem_of_cons in Hin as [-> | Hin]; done.
Qed.

(** X23. Typing into a field of the sign-in form stores the typed text under
    that field and leaves every other field as it was; for a field the form
    already has, the set and order of fields do not change. *)
Theorem handleInputChange_updates_one_field
    (name typed : string) (st : AuthPage.State) :
  let st' := AuthPage.handleInputChange name typed st in
  assoc name (AuthPage.formValues st') = VStr typed
  ∧ (∀ other, other ≠ name →
       assoc other (AuthPage.formValues st')
       = assoc other (AuthPage.formValues st))
  ∧ (name ∈ (AuthPage.formValues st).*1 →
     (AuthPage.formValues st').*1 = (AuthPage.formValues st).*1)
  ∧ AuthPage.mode st' = AuthPage.mode st
  ∧ AuthPage.feedback st' = AuthPage.feedback st.
Proof.
  intros st'. subst st'. simpl. repeat split.
  - apply assoc_set_same.
  - intros other Hne. by apply assoc_set_other.
  - apply assoc_set_keys.
Qed.

(** X24. Submitting the sign-in form navigates away exactly when the signup
    or login call resolved; a login sends the [email] and [password] fields
    only. Navigating leaves the sign-in route, so the page is then unmounted
    and its typed values and feedback are discarded. On a rejection the page
    stays: it shows the message as the form error, keeps the typed values and
    the mode, and the identity in memory and in storage is as it was. *)
Theorem handleSubmit_outcome
    (JSON_stringify : value → string) (apiClient : ApiClient)
    (st : AuthPage.State) (auth : AuthContext.Store) :
  let called :=
    if String.eqb (AuthPage.mode st) "signup"
    then api_signup apiClient (VObj (AuthPage.formValues st))
    else api_login apiClient
           (VObj [("email", assoc "email" (AuthPage.formValues st));
                  ("password", assoc "password" (AuthPage.formValues st))]) in
  let done := AuthPage.handleSubmit true JSON_stringify apiClient st auth in
  match called with
  | Resolved response =>
      AuthPage.navigated done = true
      ∧ AuthPage.page done = None
      ∧ AuthContext.token (AuthPage.store done)
        = coalesce (get "token" response) VNull
  | Rejected message =>
      AuthPage.navigated done = false
      ∧ AuthPage.page done
        = Some {| AuthPage.mode := AuthPage.mode st;
                  AuthPage.formValues := AuthPage.formValues st;
                  AuthPage.feedback :=
                    {| AuthPage.error := Some message;
                       AuthPage.success := None |} |}
      ∧ AuthContext.authState (AuthPage.store done)
        = AuthContext.authState auth
      ∧ AuthContext.stored (AuthPage.store done) = AuthContext.stored auth
  end.
Proof.
  intros called done. subst called done.
  unfold AuthPage.handleSubmit, AuthContext.signup, AuthContext.login,
    AuthContext.authenticate.
  destruct (String.eqb (AuthPage.mode st) "signup"); simpl.
  - destruct (api_signup apiClient _) as [response | m]; simpl;
      repeat split.
    unfold AuthContext.token, AuthContext.persistState. simpl.
    by destruct (truthy _).
  - destruct (api_login apiClient _) as [response | m]; simpl;
      repeat split.
    unfold AuthContext.token, AuthContext.persistState. simpl.
    by destruct (truthy _).
Qed.

(** X25. A login that the backend answers without a usable token still
    navigates to the dashboard, where the protected route sends the visitor
    straight back to the sign-in page; with a truthy token the dashboard is
    shown. *)
Theorem login_without_token_bounces
    (JSON_stringify : value → string) (apiClient : ApiClient)
    (st : AuthPage.State) (auth : AuthContext.Store) (response : value) :
  AuthPage.mode st = "login" →
  api_login apiClient
    (VObj [("email", assoc "email" (AuthPage.formValues st));
           ("password", assoc "password" (AuthPage.formValues st))])
  = Resolved response →
  let done := AuthPage.handleSubmit true JSON_stringify apiClient st auth in
  AuthPage.navigated done = true
  ∧ App.ProtectedRoute (AuthPage.store done)
    = if truthy (get "token" response) then App.Children
      else App.RedirectToAuth.
Proof.
  intros Hmode Hlogin done. subst done.
  unfold AuthPage.handleSubmit, AuthContext.login, AuthContext.authenticate.
  rewrite Hmode. simpl. rewrite Hlogin. simpl. split; [reflexivity |].
  unfold App.ProtectedRoute, AuthContext.isAuthenticated, AuthContext.token,
    AuthContext.persistState. simpl.
  assert (Hsame : truthy (coalesce (get "token" response) VNull)
                  = truthy (get "token" response))
    by (unfold coalesce; by destruct (get "token" response)).
  rewrite Hsame. by destruct (truthy (get "token" response)); simpl;
    rewrite ?Hsame.
Qed.

Lemma login_without_token_bounces_witness :
  let done := AuthPage.handleSubmit true MoreSamples.stringifyIdentity
                Samples.authBackend AuthPage.initialState
                (AuthContext.init true Samples.parseMessageText None) in
  AuthPage.navigated done = true
  ∧ App.ProtectedRoute (AuthPage.store done) = App.RedirectToAuth.
Proof.
  apply (login_without_token_bounces MoreSamples.stringifyIdentity
           Samples.authBackend AuthPage.initialState
           (AuthContext.init true Samples.parseMessageText None)
           Samples.loginResponseNoToken); reflexivity.
Defined.
